(** * Auto-ranging ohm meter: a shallow embedding of the firmware

    The sketch [Nano_Code_Rev1-3_1.ino] samples three differential voltages
    through an ADS1115, switches up to four resistors in parallel with a
    1 Mohm known resistance, derives the unknown resistance by Ohm's law and
    shows a running average on a character display.

    Conventions of the embedding.
    - The sketch's globals and the function-static [openSwitches] are the
      fields of the record [Fw]; every function of the sketch is a command
      of a small state monad over [Fw].
    - [double] and [float] values are exact rationals ([Q]): the statements
      below are about the arithmetic the sketch writes down, not about
      rounding, and values are compared up to [==].  The infinities and NaN
      that a division by zero produces in C have no counterpart in [Q],
      where [x / 0] is [0]; [knownResistance_positive] shows that the
      divisor of [calculateCurrent] is never zero, and a statement about
      the quotient of [calculateResistance] assumes a current other than
      zero.
    - The peripherals are external.  What the sketch sends to them (pin
      writes, gain changes, display commands) is appended to [trace]; what
      it reads from the converter comes from an arbitrary [ADS1115]
      instance, which may depend on the pins, the gain and its own state.
    - [setup] and [loop] run on a [Sketch]: the measurement state, the two
      timestamps and the configuration calls of [setup].  The answer of
      [ads.begin()] and the [int] that [millis()] is stored as are inputs;
      the subtraction of two [int] timestamps is exact when the difference
      fits an [int] and left open otherwise ([IntArith]). *)

From Stdlib Require Import ZArith QArith Qpower Qfield Qminmax Lqa Lia.
From Stdlib Require Import List String Bool.
From Equations Require Import Equations.
Import ListNotations.

Open Scope Q_scope.

(** ** Peripherals *)

(** Gain settings of the converter library ([adsGain_t]). *)
Inductive adsGain_t : Set :=
| GAIN_TWOTHIRDS
| GAIN_ONE
| GAIN_TWO
| GAIN_FOUR
| GAIN_EIGHT
| GAIN_SIXTEEN.

(** The three differential channel pairs the sketch reads. *)
Inductive Channel : Set :=
| Differential_0_1
| Differential_0_3
| Differential_2_3.

(** What is printed on the display: a literal, or [String(value) + suffix]. *)
Inductive Text : Type :=
| Lit (s : string)
| Num (value : Q) (suffix : string).

(** Calls that reach a peripheral, in program order. *)
Inductive Event : Type :=
| DigitalWrite (pin : nat) (level : bool)
| SetGain (g : adsGain_t)
| LcdClear
| LcdSetCursor (col row : nat)
| LcdPrint (t : Text).

Definition LOW : bool := false.
Definition HIGH : bool := true.

(** The converter as the sketch sees it: a reading may depend on the channel,
    on the pins and gain in force and on the converter's own state [W];
    [computeVolts] turns counts into volts under the gain in force. *)
Class ADS1115 (W : Type) : Type := {
  readADC : Channel -> (nat -> bool) -> adsGain_t -> W -> Z * W;
  computeVolts : adsGain_t -> Z -> Q
}.

(** ** Constants of the sketch *)

Definition res_100k : nat := 2.
Definition res_10k : nat := 3.
Definition res_1k : nat := 4.
Definition res_220 : nat := 5.

Definition RESISTOR_1M : Q := 990090.
(** [const float LEAD_RESISTANCE = 0.08]: the constant holds the
    single-precision number nearest 0.08, which is 10737418 / 2^27, that is
    0.0799999982...; it is this value that is subtracted. *)
Definition LEAD_RESISTANCE : Q := 10737418 # 134217728.

Definition RESISTANCE_VALUES : list Q := [220; 1000; 9997; 100078].
Definition NUMBER_OF_SWITCHES : nat := 4.
Definition SWITCHES : list nat := [res_220; res_1k; res_10k; res_100k].

(** [pow] of the C library at an integer exponent. *)
Definition pow (x : Q) (n : Z) : Q := x ^ n.

(** [a > b] and [a >= b] on doubles. *)
Definition Qgtb (a b : Q) : bool := negb (Qle_bool a b).
Definition Qgeb (a b : Q) : bool := Qle_bool b a.
Definition Qltb (a b : Q) : bool := negb (Qle_bool b a).

(** ** A state monad

    The sketch keeps its data in globals that every function reads and
    writes: a function that returns an [A] is a [State S A]. *)

Definition State (S A : Type) : Type := S -> A * S.

Definition ret {S A} (a : A) : State S A := fun m => (a, m).

Definition bind {S A B} (c : State S A) (k : A -> State S B) : State S B :=
  fun m => let (a, m') := c m in k a m'.

Definition exec {S A} (c : State S A) (m : S) : S := snd (c m).

Definition get {S A} (f : S -> A) : State S A := fun m => (f m, m).

Definition modify {S} (f : S -> S) : State S unit := fun m => (tt, f m).

Notation "x <- c ;; k" := (bind c (fun x => k))
  (at level 61, c at next level, right associativity).
Notation "c ;; k" := (bind c (fun _ => k))
  (at level 61, right associativity).

(** ** Firmware state and commands *)

Section Firmware.

Context {W : Type} {ads : ADS1115 W}.

Record Fw : Type := mkFw {
  unknownResistance : Q;
  knownResistance : Q;
  unknownVoltage : Q;
  knownVoltage : Q;
  referenceVoltage : Q;
  current : Q;
  openSwitches : nat;          (* static byte of readVoltages *)
  pins : nat -> bool;          (* level of each digital output *)
  gain : adsGain_t;            (* gain held by the converter object *)
  adc : W;                     (* state of the converter *)
  trace : list Event           (* peripheral calls so far, oldest first *)
}.

(** Assignment to one variable of the state. *)
Definition set_unknownResistance (v : Q) (m : Fw) : Fw :=
  mkFw v (knownResistance m) (unknownVoltage m)
       (knownVoltage m) (referenceVoltage m) (current m)
       (openSwitches m) (pins m) (gain m) (adc m) (trace m).

Definition set_knownResistance (v : Q) (m : Fw) : Fw :=
  mkFw (unknownResistance m) v (unknownVoltage m)
       (knownVoltage m) (referenceVoltage m) (current m)
       (openSwitches m) (pins m) (gain m) (adc m) (trace m).

Definition set_unknownVoltage (v : Q) (m : Fw) : Fw :=
  mkFw (unknownResistance m) (knownResistance m) v
       (knownVoltage m) (referenceVoltage m) (current m)
       (openSwitches m) (pins m) (gain m) (adc m) (trace m).

Definition set_knownVoltage (v : Q) (m : Fw) : Fw :=
  mkFw (unknownResistance m) (knownResistance m) (unknownVoltage m)
       v (referenceVoltage m) (current m)
       (openSwitches m) (pins m) (gain m) (adc m) (trace m).

Definition set_referenceVoltage (v : Q) (m : Fw) : Fw :=
  mkFw (unknownResistance m) (knownResistance m) (unknownVoltage m)
       (knownVoltage m) v (current m)
       (openSwitches m) (pins m) (gain m) (adc m) (trace m).

Definition set_current (v : Q) (m : Fw) : Fw :=
  mkFw (unknownResistance m) (knownResistance m) (unknownVoltage m)
       (knownVoltage m) (referenceVoltage m) v
       (openSwitches m) (pins m) (gain m) (adc m) (trace m).

Definition set_openSwitches (v : nat) (m : Fw) : Fw :=
  mkFw (unknownResistance m) (knownResistance m) (unknownVoltage m)
       (knownVoltage m) (referenceVoltage m) (current m)
       v (pins m) (gain m) (adc m) (trace m).

Definition set_pins (v : nat -> bool) (m : Fw) : Fw :=
  mkFw (unknownResistance m) (knownResistance m) (unknownVoltage m)
       (knownVoltage m) (referenceVoltage m) (current m)
       (openSwitches m) v (gain m) (adc m) (trace m).

Definition set_gain (v : adsGain_t) (m : Fw) : Fw :=
  mkFw (unknownResistance m) (knownResistance m) (unknownVoltage m)
       (knownVoltage m) (referenceVoltage m) (current m)
       (openSwitches m) (pins m) v (adc m) (trace m).

Definition set_adc (v : W) (m : Fw) : Fw :=
  mkFw (unknownResistance m) (knownResistance m) (unknownVoltage m)
       (knownVoltage m) (referenceVoltage m) (current m)
       (openSwitches m) (pins m) (gain m) v (trace m).

Definition set_trace (v : list Event) (m : Fw) : Fw :=
  mkFw (unknownResistance m) (knownResistance m) (unknownVoltage m)
       (knownVoltage m) (referenceVoltage m) (current m)
       (openSwitches m) (pins m) (gain m) (adc m) v.

(** Commands of the sketch: the state monad over [Fw]. *)
Definition Cmd (A : Type) : Type := State Fw A.

Definition emit (e : Event) : Cmd unit :=
  modify (fun m => set_trace (trace m ++ [e]) m).

(** *** Peripheral calls *)

Definition digitalWrite (pin : nat) (level : bool) : Cmd unit :=
  modify (fun m => set_pins (fun p => if Nat.eqb p pin then level else pins m p) m) ;;
  emit (DigitalWrite pin level).

Definition setGain (g : adsGain_t) : Cmd unit :=
  modify (set_gain g) ;;
  emit (SetGain g).

Definition readADC_Differential (ch : Channel) : Cmd Z :=
  fun m => let reading := readADC ch (pins m) (gain m) (adc m) in
           (fst reading, set_adc (snd reading) m).

Definition ads_computeVolts (counts : Z) : Cmd Q :=
  g <- get gain ;; ret (computeVolts g counts).

Definition lcd_clear : Cmd unit := emit LcdClear.
Definition lcd_setCursor (col row : nat) : Cmd unit := emit (LcdSetCursor col row).
Definition lcd_print (t : Text) : Cmd unit := emit (LcdPrint t).

(** *** [byte] arithmetic on [openSwitches] *)

Definition byte_inc (n : nat) : nat := ((n + 1) mod 256)%nat.
Definition byte_dec (n : nat) : nat := ((n + 255) mod 256)%nat.

(** *** [calculateCurrent] and [calculateResistance]

    [current = knownVoltage/knownResistance], then
    [calculatedResistance = unknownVoltage/current] and
    [unknownResistance = (unknownResistance + calculatedResistance) / 2]. *)

Definition calculateCurrent : Cmd unit :=
  modify (fun m => set_current (knownVoltage m / knownResistance m) m).

Definition calculateResistance : Cmd unit :=
  fun m =>
    let calculatedResistance := unknownVoltage m / current m in
    (tt, set_unknownResistance ((unknownResistance m + calculatedResistance) / 2) m).

(** *** [displayMeasurement]

    The range test comes first and returns early; otherwise the lead
    resistance is subtracted in the local [resistance], which is scaled by
    1.025 from 5e5 ohm on and printed. *)

Definition displayMeasurement : Cmd unit :=
  lcd_clear ;;
  r <- get unknownResistance ;;
  if Qltb r 0 || Qgeb r (1.5 * pow 10 6) then
    modify (set_unknownResistance 0) ;;
    lcd_setCursor 7 0 ;;
    lcd_print (Lit "OL") ;;
    lcd_setCursor 0 1 ;;
    lcd_print (Lit "Range: 0 - 1.5M")
  else
    lcd_setCursor 0 0 ;;
    r <- get unknownResistance ;;
    let resistance := r - LEAD_RESISTANCE in
    let resistance :=
      if Qgeb resistance (5.0 * pow 10 5) then resistance * 1.025 else resistance in
    lcd_print (Num resistance " ohms").

(** *** [readVoltages] *)

(** A loop test together with the proof of its outcome. *)
Definition inspect {A} (a : A) : {b : A | a = b} := exist _ a eq_refl.

(** Body of the first loop: [digitalWrite(SWITCHES[openSwitches++], LOW)]. *)
Definition openNextSwitch : Cmd unit :=
  i <- get openSwitches ;;
  modify (set_openSwitches (byte_inc i)) ;;
  digitalWrite (nth i SWITCHES 0%nat) LOW.

(** First loop: switch the parallel resistors off again. *)
Equations? resetSwitches (m : Fw) : Fw
  by wf (NUMBER_OF_SWITCHES - openSwitches m)%nat lt :=
  resetSwitches m with inspect (openSwitches m <? NUMBER_OF_SWITCHES)%nat := {
    | exist _ true _ := resetSwitches (exec openNextSwitch m)
    | exist _ false _ := m }.
Proof.
  apply Nat.ltb_lt in e. unfold NUMBER_OF_SWITCHES in *.
  change (4 - byte_inc (openSwitches m) < 4 - openSwitches m)%nat.
  unfold byte_inc. rewrite Nat.mod_small by lia. lia.
Qed.

(** Test of the second loop:
    [knownVoltage > (referenceVoltage * 0.75) && openSwitches > 0]. *)
Definition dropTooHigh (m : Fw) : bool :=
  Qgtb (knownVoltage m) (referenceVoltage m * 0.75) && (0 <? openSwitches m)%nat.

(** The three measurements: read the counts, convert, store. *)
Definition readReferenceVoltage : Cmd unit :=
  referenceADC <- readADC_Differential Differential_0_3 ;;
  v <- ads_computeVolts referenceADC ;;
  modify (set_referenceVoltage v).

Definition readKnownVoltage : Cmd unit :=
  knownADC <- readADC_Differential Differential_2_3 ;;
  v <- ads_computeVolts knownADC ;;
  modify (set_knownVoltage v).

Definition readUnknownVoltage : Cmd unit :=
  unknownADC <- readADC_Differential Differential_0_1 ;;
  v <- ads_computeVolts unknownADC ;;
  modify (set_unknownVoltage v).

(** Body of the second loop: close the next switch, fold its resistor into
    the known resistance, read the known and the reference voltage again.
    An index past the end of either table is undefined in C; the test of the
    loop keeps [openSwitches] within 1..4 here. *)
Definition addParallelResistor : Cmd unit :=
  i <- get openSwitches ;;
  modify (set_openSwitches (byte_dec i)) ;;
  i <- get openSwitches ;;
  digitalWrite (nth i SWITCHES 0%nat) HIGH ;;
  r <- get knownResistance ;;
  modify (set_knownResistance
            (1 / (pow r (-1) + pow (nth i RESISTANCE_VALUES 0) (-1)))) ;;
  readKnownVoltage ;;
  readReferenceVoltage.

(** Second loop: lessen the drop across the known resistance. *)
Equations? lessenDrop (m : Fw) : Fw by wf (openSwitches m) lt :=
  lessenDrop m with inspect (dropTooHigh m) := {
    | exist _ true _ := lessenDrop (exec addParallelResistor m)
    | exist _ false _ := m }.
Proof.
  apply andb_true_iff in e. destruct e as [_ e]. apply Nat.ltb_lt in e.
  unfold addParallelResistor, readKnownVoltage, readReferenceVoltage.
  unfold exec, bind, readADC_Differential.
  repeat (cbn -[byte_dec readADC nth];
          try match goal with |- context [readADC ?c ?p ?g ?w] =>
                destruct (readADC c p g w) end).
  unfold byte_dec.
  destruct (Nat.lt_ge_cases (openSwitches m) 256) as [Hb | Hb].
  - replace (openSwitches m + 255)%nat with (openSwitches m - 1 + 1 * 256)%nat by lia.
    rewrite Nat.Div0.mod_add, Nat.mod_small by lia. lia.
  - pose proof (Nat.mod_upper_bound (openSwitches m + 255) 256). lia.
Qed.

(** The gain adjustment: the tier is chosen from the unknown voltage. *)
Definition adjustGain : Cmd unit :=
  v <- get unknownVoltage ;;
  if Qgtb v (-0.256) && Qltb v 0.256 then setGain GAIN_SIXTEEN
  else if Qgtb v (-0.512) && Qltb v 0.512 then setGain GAIN_EIGHT
  else if Qgtb v (-0.124) && Qltb v 1.024 then setGain GAIN_FOUR
  else if Qgtb v (-2.048) && Qltb v 2.048 then setGain GAIN_TWO
  else if Qgtb v (-4.096) && Qltb v 4.096 then setGain GAIN_ONE
  else setGain GAIN_TWOTHIRDS.

(** Start of [readVoltages], up to the second loop. *)
Definition removeParallelResistors : Cmd unit :=
  modify resetSwitches ;;
  modify (set_knownResistance RESISTOR_1M).

Definition readVoltages : Cmd unit :=
  removeParallelResistors ;;
  readReferenceVoltage ;;
  readKnownVoltage ;;
  modify lessenDrop ;;
  readUnknownVoltage ;;
  adjustGain ;;
  readUnknownVoltage ;;
  setGain GAIN_TWOTHIRDS.

(** *** The sampling branch of [loop] *)

Definition sampleCycle : Cmd unit :=
  readVoltages ;;
  calculateCurrent ;;
  calculateResistance.

(** The state [setup] leaves behind when the converter answers: every pin
    LOW, [openSwitches] at its initial 4, the known resistance at its base
    value, the converter at the gain its constructor sets, the other globals
    at zero.  The trace starts here. *)
Definition afterSetup (w : W) : Fw :=
  mkFw 0 RESISTOR_1M 0
       0 0 0
       4 (fun _ => LOW) GAIN_TWOTHIRDS w [].

End Firmware.

Arguments Fw W : clear implicits.
Arguments Cmd W A : clear implicits.

(** ** A converter for worked examples

    The counts are scripted: each read takes the next one (0 once the script
    is over); volts are computed as the ADS1115 driver does, full-scale range
    of the gain over 32768 counts. *)

Definition fsRange (g : adsGain_t) : Q :=
  match g with
  | GAIN_TWOTHIRDS => 6.144
  | GAIN_ONE => 4.096
  | GAIN_TWO => 2.048
  | GAIN_FOUR => 1.024
  | GAIN_EIGHT => 0.512
  | GAIN_SIXTEEN => 0.256
  end.

#[export] Instance scripted : ADS1115 (list Z) := {
  readADC _ _ _ w := match w with [] => (0%Z, []) | c :: w' => (c, w') end;
  computeVolts g counts := inject_Z counts * (fsRange g / 32768)
}.

(** A cycle whose known voltage starts at 95% of the reference and is at 50%
    once one resistor has been added. *)
Definition benchHighDrop : Fw (list Z) :=
  afterSetup [20000; 19000; 10000; 20000]%Z.

(** A cycle with the known voltage at half the reference and -3200 counts,
    that is -0.6 V at the default gain, across the unknown resistor. *)
Definition benchNegative : Fw (list Z) :=
  afterSetup [16000; 8000; -3200]%Z.

(** A state whose running average is [r]. *)
Definition benchAverage (r : Q) : Fw (list Z) :=
  set_unknownResistance r (afterSetup []).

(** ** Vocabulary of the statements *)

Section Vocabulary.

Context {W : Type} {ads : ADS1115 W}.

(** The reciprocal-sum rule for resistors in parallel. *)
Definition parallel (rs : list Q) : Q :=
  1 / fold_right (fun r acc => / r + acc) 0 rs.

(** The resistors whose switch is closed, read off the pins. *)
Definition enabledTaps (m : Fw W) : list Q :=
  map snd (filter (fun t => pins m (fst t)) (combine SWITCHES RESISTANCE_VALUES)).

(** [openSwitches] counts the open switches, and the closed ones are those
    of the table from that index on. *)
Definition switchesInv (m : Fw W) : Prop :=
  (openSwitches m <= 4)%nat /\
  forall i, (i < 4)%nat -> pins m (nth i SWITCHES 0%nat) = (openSwitches m <=? i)%nat.

(** The state in which the second loop of [readVoltages] is entered. *)
Definition searchEntry (m : Fw W) : Fw W :=
  exec (removeParallelResistors ;; readReferenceVoltage ;; readKnownVoltage) m.

(** What [readVoltages] does once the second loop is over. *)
Definition afterSearch : Cmd W unit :=
  readUnknownVoltage ;; adjustGain ;; readUnknownVoltage ;; setGain GAIN_TWOTHIRDS.

(** The states the second loop passes through, from its entry [m0]. *)
Inductive searchState (m0 : Fw W) : Fw W -> Prop :=
| search_entry : searchState m0 m0
| search_next s :
    searchState m0 s -> dropTooHigh s = true ->
    searchState m0 (exec addParallelResistor s).

(** The state after [j] runs of the body of the second loop from [m]. *)
Definition afterClosing (j : nat) (m : Fw W) : Fw W :=
  Nat.iter j (exec addParallelResistor) m.

(** Pin writes of a search that closes [k] switches, in the order the
    sketch issues them. *)
Definition closedInOrder (k : nat) : list Event :=
  map (fun p => DigitalWrite p HIGH) (firstn k [res_100k; res_10k; res_1k; res_220]).

(** The same with the 220 ohm switch first and the 100078 ohm one last. *)
Definition closedSmallestFirst (k : nat) : list Event :=
  map (fun p => DigitalWrite p HIGH) (firstn k [res_220; res_1k; res_10k; res_100k]).

(** The gain tiers as the header of the sketch lists them (16x at +/-0.256 V
    up to 1x at +/-4.096 V), narrowest range first. *)
Definition tiers : list (adsGain_t * Q) :=
  [(GAIN_SIXTEEN, 0.256); (GAIN_EIGHT, 0.512); (GAIN_FOUR, 1.024);
   (GAIN_TWO, 2.048); (GAIN_ONE, 4.096)].

(** The first tier, from the narrowest, whose range [-r .. r] holds [v];
    the default 2/3x tier when none does. *)
Fixpoint firstTier (ts : list (adsGain_t * Q)) (v : Q) : adsGain_t :=
  match ts with
  | [] => GAIN_TWOTHIRDS
  | (g, r) :: ts' => if Qgtb v (- r) && Qltb v r then g else firstTier ts' v
  end.

Definition narrowestTier (v : Q) : adsGain_t := firstTier tiers v.

(** [n] successive runs of [calculateResistance]. *)
Definition averageAfter (n : nat) (m : Fw W) : Fw W :=
  Nat.iter n (exec calculateResistance) m.

(** The states the sketch can be in between two activities of [loop]. *)
Inductive running (w : W) : Fw W -> Prop :=
| running_setup : running w (afterSetup w)
| running_sample m : running w m -> running w (exec sampleCycle m)
| running_display m : running w m -> running w (exec displayMeasurement m).

(** What a refresh of the display sends when the value is shown. *)
Definition shownAs (v : Q) : list Event :=
  [LcdClear; LcdSetCursor 0 0; LcdPrint (Num v " ohms")].

(** What a refresh sends when the value is out of range. *)
Definition shownOutOfRange : list Event :=
  [LcdClear; LcdSetCursor 7 0; LcdPrint (Lit "OL");
   LcdSetCursor 0 1; LcdPrint (Lit "Range: 0 - 1.5M")].

End Vocabulary.

(** ** [setup] and [loop]

    The two timestamps of [loop] and the calls of [setup] that configure a
    peripheral are kept beside the measurement state. *)

(** Configuration calls of [setup], in program order. *)
Inductive ConfigCall : Type :=
| SerialBegin (baud : Z)
| LcdInit
| LcdBacklight
| PinModeOutput (pin : nat).

Record Sketch (W : Type) : Type := mkSketch {
  fw : Fw W;
  lastSample : Z;              (* time of last sample update *)
  lastDisplay : Z;             (* time of last display update *)
  config : list ConfigCall
}.

Arguments mkSketch {W}.
Arguments fw {W}.
Arguments lastSample {W}.
Arguments lastDisplay {W}.
Arguments config {W}.

(** The [int] of the board.  [loop] subtracts two [int] timestamps; the
    difference is the exact one whenever that fits an [int], and nothing is
    assumed about it when it does not (signed overflow). *)
Class IntArith : Type := {
  INT_MAX : Z;
  int_sub : Z -> Z -> Z;
  int_sub_exact :
    forall a b, (- INT_MAX - 1 <= a - b <= INT_MAX)%Z -> int_sub a b = (a - b)%Z
}.

Definition SAMPLE_RATE : Z := 1.
Definition DISPLAY_RATE : Z := 100.

(** How [setup] ends: it returns, or it stays in [while (1)]. *)
Inductive Boot (W : Type) : Type :=
| Ready (s : Sketch W)
| Halted (s : Sketch W).

Arguments Ready {W}.
Arguments Halted {W}.

Section Program.

Context {W : Type} {ads : ADS1115 W} {int : IntArith}.

Definition set_fw (v : Fw W) (s : Sketch W) : Sketch W :=
  mkSketch v (lastSample s) (lastDisplay s) (config s).

Definition set_lastSample (v : Z) (s : Sketch W) : Sketch W :=
  mkSketch (fw s) v (lastDisplay s) (config s).

Definition set_lastDisplay (v : Z) (s : Sketch W) : Sketch W :=
  mkSketch (fw s) (lastSample s) v (config s).

Definition set_config (v : list ConfigCall) (s : Sketch W) : Sketch W :=
  mkSketch (fw s) (lastSample s) (lastDisplay s) v.

(** A function of the sketch run on the measurement state. *)
Definition inFw {A} (c : Cmd W A) : State (Sketch W) A :=
  fun s => let (a, m) := c (fw s) in (a, set_fw m s).

Definition configure (c : ConfigCall) : State (Sketch W) unit :=
  modify (fun s => set_config (config s ++ [c]) s).

(** [setup], up to the test of [ads.begin()]. *)
Definition setupPeripherals : State (Sketch W) unit :=
  configure (SerialBegin 9600) ;;
  configure LcdInit ;;
  configure LcdBacklight ;;
  configure (PinModeOutput res_100k) ;;
  inFw (digitalWrite res_100k LOW) ;;
  configure (PinModeOutput res_10k) ;;
  inFw (digitalWrite res_10k LOW) ;;
  configure (PinModeOutput res_1k) ;;
  inFw (digitalWrite res_1k LOW) ;;
  configure (PinModeOutput res_220) ;;
  inFw (digitalWrite res_220 LOW).

(** [setup]; [began] is the answer of [ads.begin()]. *)
Definition setup (began : bool) (s : Sketch W) : Boot W :=
  let s := exec setupPeripherals s in
  if negb began then
    Halted (exec (inFw (lcd_print (Lit "ADC Fail"))) s)
  else
    Ready (exec (inFw (modify (set_knownResistance RESISTOR_1M)) ;;
                 modify (set_lastSample 0%Z) ;;
                 modify (set_lastDisplay 0%Z)) s).

(** [loop]; [currentTime] is the [int] that [millis()] is stored as. *)
Definition loop (currentTime : Z) : State (Sketch W) unit :=
  last <- get lastSample ;;
  (if (SAMPLE_RATE <=? int_sub currentTime last)%Z then
     modify (set_lastSample currentTime) ;;
     inFw readVoltages ;;
     inFw calculateCurrent ;;
     inFw calculateResistance
   else ret tt) ;;
  last <- get lastDisplay ;;
  (if (DISPLAY_RATE <=? int_sub currentTime last)%Z then
     modify (set_lastDisplay currentTime) ;;
     inFw displayMeasurement
   else ret tt).

(** [loop] called once for each time of [ts], in order. *)
Definition runLoop (ts : list Z) (s : Sketch W) : Sketch W :=
  fold_left (fun s t => exec (loop t) s) ts s.

(** The globals as the program starts: zero, [openSwitches] at its
    initializer 4, the converter at the gain its constructor sets. *)
Definition powerOn (w : W) : Sketch W :=
  mkSketch (mkFw 0 0 0 0 0 0 4 (fun _ => LOW) GAIN_TWOTHIRDS w []) 0 0 [].

(** What the measurement state must satisfy between two activities. *)
Definition cycleInv (m : Fw W) : Prop :=
  switchesInv m /\
  gain m = GAIN_TWOTHIRDS /\
  knownResistance m == parallel (RESISTOR_1M :: enabledTaps m).

End Program.

(** The 16-bit [int] of the ATmega328P, with wrap-around subtraction. *)
Definition wrap16 (z : Z) : Z := ((z + 32768) mod 65536 - 32768)%Z.

#[export] Instance avrInt : IntArith.
Proof.
  refine {| INT_MAX := 32767%Z; int_sub := fun a b => wrap16 (a - b) |}.
  intros a b H. unfold wrap16. rewrite Z.mod_small; lia.
Defined.

(** The sketch on the scripted converter, both timestamps at 0. *)
Definition benchSketch : Sketch (list Z) :=
  mkSketch benchHighDrop 0 0 [].

(** ** Proofs *)

Section Proofs.

Context {W : Type} {ads : ADS1115 W}.

Implicit Types m : Fw W.

(** Runs a command on a symbolic state, naming each converter reading. *)
Ltac fw_run :=
  unfold searchEntry, afterSearch, readVoltages, sampleCycle, removeParallelResistors,
    addParallelResistor, openNextSwitch, readKnownVoltage, readReferenceVoltage,
    readUnknownVoltage, calculateCurrent, calculateResistance,
    setGain, digitalWrite, lcd_clear, lcd_setCursor, lcd_print, emit,
    ads_computeVolts, readADC_Differential, exec, bind, modify, get, ret;
  repeat (cbn -[byte_dec byte_inc readADC computeVolts nth pow Qdiv Qplus Qinv
                resetSwitches lessenDrop];
          try match goal with |- context [readADC ?c ?p ?g ?w] =>
                destruct (readADC c p g w) end).

(** *** Sequencing *)

Lemma exec_seq {S A B} (c : State S A) (k : State S B) (s : S) :
  exec (c ;; k) s = exec k (exec c s).
Proof. unfold exec, bind. destruct (c s). reflexivity. Qed.

(** *** The two loops as [while] rules *)

Lemma resetSwitches_rule (P : Fw W -> Fw W -> Prop) :
  (forall m r, (openSwitches m <? NUMBER_OF_SWITCHES)%nat = true ->
               P (exec openNextSwitch m) r -> P m r) ->
  (forall m, (openSwitches m <? NUMBER_OF_SWITCHES)%nat = false -> P m m) ->
  forall m, P m (resetSwitches m).
Proof.
  intros Hstep Hdone. apply resetSwitches_elim; cbv zeta; intros; eauto.
Qed.

Lemma lessenDrop_rule (P : Fw W -> Fw W -> Prop) :
  (forall m r, dropTooHigh m = true ->
               P (exec addParallelResistor m) r -> P m r) ->
  (forall m, dropTooHigh m = false -> P m m) ->
  forall m, P m (lessenDrop m).
Proof.
  intros Hstep Hdone. apply lessenDrop_elim; cbv zeta; intros; eauto.
Qed.

Lemma resetSwitches_while m :
  resetSwitches m =
  if (openSwitches m <? NUMBER_OF_SWITCHES)%nat
  then resetSwitches (exec openNextSwitch m) else m.
Proof.
  pattern m, (resetSwitches m). apply resetSwitches_elim; cbv zeta.
  - intros m0 e _ _. now rewrite e.
  - intros m0 e _. now rewrite e.
Qed.

Lemma lessenDrop_while m :
  lessenDrop m =
  if dropTooHigh m then lessenDrop (exec addParallelResistor m) else m.
Proof.
  pattern m, (lessenDrop m). apply lessenDrop_elim; cbv zeta.
  - intros m0 e _ _. now rewrite e.
  - intros m0 e _. now rewrite e.
Qed.

(** *** One turn of each loop *)

Lemma byte_dec_S n : (n < 256)%nat -> byte_dec (S n) = n.
Proof.
  intros Hn. unfold byte_dec.
  replace (S n + 255)%nat with (n + 1 * 256)%nat by lia.
  rewrite Nat.Div0.mod_add. apply Nat.mod_small. assumption.
Qed.

Lemma byte_inc_small n : (n < 255)%nat -> byte_inc n = S n.
Proof.
  intros Hn. unfold byte_inc. rewrite Nat.mod_small by lia. lia.
Qed.

Lemma addParallelResistor_fields m :
  let m' := exec addParallelResistor m in
  let i := byte_dec (openSwitches m) in
  openSwitches m' = i /\
  trace m' = trace m ++ [DigitalWrite (nth i SWITCHES 0%nat) HIGH] /\
  pins m' = (fun p => if Nat.eqb p (nth i SWITCHES 0%nat) then HIGH else pins m p) /\
  knownResistance m' =
    1 / (pow (knownResistance m) (-1) + pow (nth i RESISTANCE_VALUES 0) (-1)) /\
  unknownResistance m' = unknownResistance m /\
  unknownVoltage m' = unknownVoltage m /\
  current m' = current m /\
  gain m' = gain m.
Proof. fw_run. repeat split. Qed.

Lemma openNextSwitch_fields m :
  let m' := exec openNextSwitch m in
  let i := openSwitches m in
  openSwitches m' = byte_inc i /\
  trace m' = trace m ++ [DigitalWrite (nth i SWITCHES 0%nat) LOW] /\
  pins m' = (fun p => if Nat.eqb p (nth i SWITCHES 0%nat) then LOW else pins m p) /\
  unknownResistance m' = unknownResistance m /\
  unknownVoltage m' = unknownVoltage m /\
  current m' = current m /\
  gain m' = gain m /\
  adc m' = adc m.
Proof. fw_run. repeat split. Qed.

(** *** The switches *)

(** The four instances of the pin clause of [switchesInv]. *)
Lemma switchesInv_pins m :
  switchesInv m ->
  pins m res_220 = (openSwitches m <=? 0)%nat /\
  pins m res_1k = (openSwitches m <=? 1)%nat /\
  pins m res_10k = (openSwitches m <=? 2)%nat /\
  pins m res_100k = (openSwitches m <=? 3)%nat.
Proof.
  intros [_ H]. repeat split.
  - apply (H 0%nat). lia.
  - apply (H 1%nat). lia.
  - apply (H 2%nat). lia.
  - apply (H 3%nat). lia.
Qed.

Lemma switchesInv_intro m :
  (openSwitches m <= 4)%nat ->
  pins m res_220 = (openSwitches m <=? 0)%nat ->
  pins m res_1k = (openSwitches m <=? 1)%nat ->
  pins m res_10k = (openSwitches m <=? 2)%nat ->
  pins m res_100k = (openSwitches m <=? 3)%nat ->
  switchesInv m.
Proof.
  intros Hle H0 H1 H2 H3. split; [assumption |].
  intros i Hi.
  destruct i as [|[|[|[|i]]]]; cbn [nth SWITCHES]; try assumption; lia.
Qed.

Lemma enabledTaps_skipn m :
  switchesInv m -> enabledTaps m = skipn (openSwitches m) RESISTANCE_VALUES.
Proof.
  intros Hinv. pose proof (switchesInv_pins m Hinv) as (H0 & H1 & H2 & H3).
  destruct Hinv as [Hle _].
  unfold enabledTaps. cbn [combine SWITCHES RESISTANCE_VALUES filter fst].
  rewrite H0, H1, H2, H3.
  destruct (openSwitches m) as [|[|[|[|[|n]]]]]; try reflexivity; lia.
Qed.

Lemma openNextSwitch_inv m :
  switchesInv m -> (openSwitches m < 4)%nat ->
  switchesInv (exec openNextSwitch m) /\
  openSwitches (exec openNextSwitch m) = S (openSwitches m).
Proof.
  intros Hinv Hlt.
  pose proof (switchesInv_pins m Hinv) as (H0 & H1 & H2 & H3).
  pose proof (openNextSwitch_fields m) as (Ho & _ & Hp & _).
  cbv zeta in *. rewrite byte_inc_small in Ho by lia.
  split; [| assumption].
  apply switchesInv_intro; rewrite ?Ho, ?Hp; [lia | | | |];
    destruct (openSwitches m) as [|[|[|[|n]]]]; cbn in *;
    try assumption; try reflexivity; try lia.
Qed.

Lemma addParallelResistor_inv m :
  switchesInv m -> (0 < openSwitches m)%nat ->
  switchesInv (exec addParallelResistor m) /\
  S (openSwitches (exec addParallelResistor m)) = openSwitches m.
Proof.
  intros Hinv Hlt.
  pose proof (switchesInv_pins m Hinv) as (H0 & H1 & H2 & H3).
  pose proof (addParallelResistor_fields m) as (Ho & _ & Hp & _).
  cbv zeta in *. destruct Hinv as [Hle _].
  destruct (openSwitches m) as [|n] eqn:En; [lia |].
  rewrite byte_dec_S in Ho, Hp by lia.
  split; [| congruence].
  apply switchesInv_intro; rewrite ?Ho, ?Hp; [lia | | | |];
    destruct n as [|[|[|[|n]]]]; cbn in *;
    try assumption; try reflexivity; try lia.
Qed.

Lemma resetSwitches_spec m :
  switchesInv m ->
  let r := resetSwitches m in
  switchesInv r /\ openSwitches r = 4%nat /\
  trace r = trace m ++
            map (fun i => DigitalWrite (nth i SWITCHES 0%nat) LOW)
                (seq (openSwitches m) (4 - openSwitches m)) /\
  unknownResistance r = unknownResistance m /\
  unknownVoltage r = unknownVoltage m /\
  current r = current m /\
  gain r = gain m /\
  adc r = adc m.
Proof.
  pattern m, (resetSwitches m). apply resetSwitches_rule; clear m.
  - intros m r Hc IH Hinv. apply Nat.ltb_lt in Hc. unfold NUMBER_OF_SWITCHES in Hc.
    destruct (openNextSwitch_inv m Hinv Hc) as [Hinv' Ho].
    destruct (IH Hinv') as (Hr & H4 & Ht & Hu & Hv & Hi & Hg & Ha).
    pose proof (openNextSwitch_fields m) as (_ & Ht' & _ & Hu' & Hv' & Hi' & Hg' & Ha').
    cbv zeta in *.
    split; [exact Hr |]. split; [exact H4 |].
    split; [| repeat split; congruence].
    rewrite Ht, Ht', Ho, <- app_assoc. f_equal.
    replace (4 - openSwitches m)%nat with (S (4 - S (openSwitches m))) by lia.
    reflexivity.
  - intros m Hc Hinv. apply Nat.ltb_ge in Hc. unfold NUMBER_OF_SWITCHES in Hc.
    destruct Hinv as [Hle Hp]. cbv zeta.
    assert (Ho : openSwitches m = 4%nat) by lia.
    split; [split; assumption |]. split; [exact Ho |].
    split; [| repeat split; reflexivity].
    rewrite Ho. cbn. now rewrite app_nil_r.
Qed.

(** *** The known resistance *)

Lemma pow_m1 x : pow x (-1) = / x.
Proof. reflexivity. Qed.

Lemma addParallelResistor_parallel m :
  switchesInv m -> (0 < openSwitches m)%nat ->
  knownResistance m == parallel (RESISTOR_1M :: enabledTaps m) ->
  let m' := exec addParallelResistor m in
  knownResistance m' == parallel (RESISTOR_1M :: enabledTaps m') /\
  knownResistance m' < knownResistance m.
Proof.
  intros Hinv Hpos Hk. cbv zeta.
  destruct (addParallelResistor_inv m Hinv Hpos) as [Hinv' Ho].
  pose proof (addParallelResistor_fields m) as (Hi & _ & _ & Hr & _).
  cbv zeta in Hi, Hr. rewrite <- Hi in Hr.
  rewrite enabledTaps_skipn in * by assumption.
  rewrite Hr, !pow_m1. rewrite <- Ho in Hk. rewrite Hk.
  destruct Hinv as [Hle _].
  destruct (openSwitches (exec addParallelResistor m)) as [|[|[|[|n]]]];
    try lia; split; vm_compute; reflexivity.
Qed.

Lemma dropTooHigh_false m :
  dropTooHigh m = false ->
  openSwitches m = 0%nat \/ knownVoltage m <= referenceVoltage m * 0.75.
Proof.
  unfold dropTooHigh, Qgtb. intros H.
  apply andb_false_iff in H. destruct H as [H | H].
  - right. apply negb_false_iff in H. now apply Qle_bool_iff.
  - left. apply Nat.ltb_ge in H. lia.
Qed.

Lemma dropTooHigh_true m :
  dropTooHigh m = true <->
  referenceVoltage m * 0.75 < knownVoltage m /\ (0 < openSwitches m)%nat.
Proof.
  unfold dropTooHigh, Qgtb. rewrite andb_true_iff, negb_true_iff, Nat.ltb_lt.
  split; intros [H1 H2]; (split; [| exact H2]).
  - apply Qnot_le_lt. intros Hle. apply Qle_bool_iff in Hle. congruence.
  - destruct (Qle_bool (knownVoltage m) (referenceVoltage m * 0.75)) eqn:E;
      [| reflexivity].
    apply Qle_bool_iff in E. exfalso. exact (Qlt_not_le _ _ H1 E).
Qed.

Lemma lessenDrop_spec m :
  switchesInv m ->
  knownResistance m == parallel (RESISTOR_1M :: enabledTaps m) ->
  let r := lessenDrop m in
  exists k,
    openSwitches m = (k + openSwitches r)%nat /\
    trace r = trace m ++
              map (fun i => DigitalWrite (nth i SWITCHES 0%nat) HIGH)
                  (rev (seq (openSwitches r) k)) /\
    switchesInv r /\
    knownResistance r == parallel (RESISTOR_1M :: enabledTaps r) /\
    (openSwitches r = 0%nat \/ knownVoltage r <= referenceVoltage r * 0.75) /\
    (dropTooHigh m = true -> (1 <= k)%nat).
Proof.
  pattern m, (lessenDrop m). apply lessenDrop_rule; clear m.
  - intros m r Hc IH Hinv Hk. cbv zeta.
    pose proof (proj1 (dropTooHigh_true m) Hc) as [_ Hpos].
    destruct (addParallelResistor_inv m Hinv Hpos) as [Hinv' Ho].
    destruct (addParallelResistor_parallel m Hinv Hpos Hk) as [Hk' _].
    destruct (IH Hinv' Hk') as (k & Hok & Ht & Hr & Hkr & Hstop & _).
    pose proof (addParallelResistor_fields m) as (Hi & Ht' & _).
    cbv zeta in Hi, Ht'. rewrite <- Hi in Ht'.
    exists (S k).
    split; [lia |]. split; [| repeat split; solve [assumption | lia | apply Hr]].
    rewrite Ht, Ht', <- app_assoc. f_equal.
    rewrite seq_S, rev_app_distr. cbn [rev app map].
    rewrite Hok, Nat.add_comm. reflexivity.
  - intros m Hc Hinv Hk. cbv zeta. exists 0%nat.
    split; [reflexivity |]. split; [cbn; now rewrite app_nil_r |].
    split; [exact Hinv |]. split; [exact Hk |].
    split; [now apply dropTooHigh_false | congruence].
Qed.

(** *** What the loops leave alone *)

Lemma resetSwitches_frame m :
  let r := resetSwitches m in
  unknownResistance r = unknownResistance m /\
  unknownVoltage r = unknownVoltage m /\
  current r = current m /\
  gain r = gain m /\
  adc r = adc m.
Proof.
  pattern m, (resetSwitches m). apply resetSwitches_rule; clear m.
  - intros m r _ IH.
    pose proof (openNextSwitch_fields m) as (_ & _ & _ & Hu & Hv & Hi & Hg & Ha).
    cbv zeta in *. repeat split; intuition congruence.
  - intros m _. cbv zeta. repeat split.
Qed.

Lemma lessenDrop_frame m :
  let r := lessenDrop m in
  unknownResistance r = unknownResistance m /\
  unknownVoltage r = unknownVoltage m /\
  current r = current m /\
  gain r = gain m.
Proof.
  pattern m, (lessenDrop m). apply lessenDrop_rule; clear m.
  - intros m r _ IH.
    pose proof (addParallelResistor_fields m) as (_ & _ & _ & _ & Hu & Hv & Hi & Hg).
    cbv zeta in *. repeat split; intuition congruence.
  - intros m _. cbv zeta. repeat split.
Qed.

Lemma lessenDrop_reached m0 : searchState m0 (lessenDrop m0).
Proof.
  assert (H : forall m, searchState m0 m -> searchState m0 (lessenDrop m)).
  { intros m. pattern m, (lessenDrop m). apply lessenDrop_rule; clear m.
    - intros m r Hc IH Hs. apply IH. now constructor.
    - intros m _ Hs. exact Hs. }
  apply H. constructor.
Qed.

(** *** [readVoltages] in three parts *)

Lemma readVoltages_parts m :
  exec readVoltages m = exec afterSearch (lessenDrop (searchEntry m)).
Proof. reflexivity. Qed.

Lemma searchEntry_spec m :
  switchesInv m ->
  let m0 := searchEntry m in
  switchesInv m0 /\ openSwitches m0 = 4%nat /\
  knownResistance m0 = RESISTOR_1M /\
  trace m0 = trace m ++
             map (fun i => DigitalWrite (nth i SWITCHES 0%nat) LOW)
                 (seq (openSwitches m) (4 - openSwitches m)).
Proof.
  intros Hinv.
  destruct (resetSwitches_spec m Hinv) as (Hr & H4 & Ht & _).
  cbv zeta in *. split; [| split; [| split]].
  - destruct Hr as [Hle Hp]. split; [exact Hle | exact Hp].
  - exact H4.
  - reflexivity.
  - exact Ht.
Qed.

Lemma afterSearch_fields m :
  let m' := exec afterSearch m in
  openSwitches m' = openSwitches m /\
  pins m' = pins m /\
  knownResistance m' = knownResistance m /\
  knownVoltage m' = knownVoltage m /\
  referenceVoltage m' = referenceVoltage m /\
  unknownResistance m' = unknownResistance m /\
  current m' = current m /\
  gain m' = GAIN_TWOTHIRDS.
Proof.
  cbv zeta. unfold afterSearch, adjustGain, exec, bind, get.
  cbn -[readADC computeVolts Qle_bool].
  repeat match goal with
         | |- context [if ?b then _ else _] => destruct b
         end; repeat split.
Qed.

(** *** The test of [displayMeasurement] *)

Lemma outOfRange_iff r :
  Qltb r 0 || Qgeb r (1.5 * pow 10 6) = true <-> r < 0 \/ 1500000 <= r.
Proof.
  unfold Qltb, Qgeb. rewrite orb_true_iff, negb_true_iff, Qle_bool_iff.
  assert (E : 1.5 * pow 10 6 == 1500000) by (vm_compute; reflexivity).
  rewrite E. split; intros [H | H]; auto; left.
  - apply Qnot_le_lt. intros Hle. apply Qle_bool_iff in Hle. congruence.
  - destruct (Qle_bool 0 r) eqn:E0; [| reflexivity].
    apply Qle_bool_iff in E0. exfalso. exact (Qlt_not_le _ _ H E0).
Qed.

Lemma inRange_iff r :
  Qltb r 0 || Qgeb r (1.5 * pow 10 6) = false <-> 0 <= r /\ r < 1500000.
Proof.
  rewrite <- not_true_iff_false, outOfRange_iff. split.
  - intros H. split.
    + apply Qnot_lt_le. tauto.
    + apply Qnot_le_lt. tauto.
  - intros [H0 H1] [H | H].
    + exact (Qlt_not_le _ _ H H0).
    + exact (Qlt_not_le _ _ H1 H).
Qed.

Lemma highEnd_iff r :
  Qgeb r (5.0 * pow 10 5) = true <-> 500000 <= r.
Proof.
  unfold Qgeb. rewrite Qle_bool_iff.
  assert (E : 5.0 * pow 10 5 == 500000) by (vm_compute; reflexivity).
  now rewrite E.
Qed.

Lemma displayMeasurement_out m :
  unknownResistance m < 0 \/ 1500000 <= unknownResistance m ->
  exec displayMeasurement m =
  set_trace (trace m ++ shownOutOfRange) (set_unknownResistance 0 m).
Proof.
  intros H. apply outOfRange_iff in H.
  unfold displayMeasurement, exec, bind, get.
  cbn -[Qltb Qgeb pow Qmult]. rewrite H.
  cbn. rewrite <- !app_assoc. reflexivity.
Qed.

Lemma displayMeasurement_in m :
  0 <= unknownResistance m -> unknownResistance m < 1500000 ->
  exec displayMeasurement m =
  set_trace
    (trace m ++
     shownAs (if Qgeb (unknownResistance m - LEAD_RESISTANCE) (5.0 * pow 10 5)
              then (unknownResistance m - LEAD_RESISTANCE) * 1.025
              else unknownResistance m - LEAD_RESISTANCE)) m.
Proof.
  intros H0 H1. pose proof (proj2 (inRange_iff _) (conj H0 H1)) as H.
  unfold displayMeasurement, exec, bind, get.
  cbn -[Qltb Qgeb pow Qmult Qminus]. rewrite H.
  cbn -[Qltb Qgeb pow Qmult Qminus]. rewrite <- !app_assoc. reflexivity.
Qed.

(** *** The search as a whole *)

Lemma searchEntry_parallel m :
  switchesInv m ->
  knownResistance (searchEntry m) ==
  parallel (RESISTOR_1M :: enabledTaps (searchEntry m)).
Proof.
  intros Hinv. destruct (searchEntry_spec m Hinv) as (Hinv0 & H4 & Hk & _).
  cbv zeta in *. rewrite enabledTaps_skipn, H4, Hk by assumption.
  vm_compute. reflexivity.
Qed.

Lemma searchState_inv m s :
  switchesInv m -> searchState (searchEntry m) s ->
  switchesInv s /\ knownResistance s == parallel (RESISTOR_1M :: enabledTaps s).
Proof.
  intros Hinv Hs. induction Hs as [| s Hs [IHinv IHk] Hc].
  - split; [apply (searchEntry_spec m Hinv) | now apply searchEntry_parallel].
  - apply dropTooHigh_true in Hc. destruct Hc as [_ Hpos]. split.
    + now apply addParallelResistor_inv.
    + now apply addParallelResistor_parallel.
Qed.

Lemma closedInOrder_indices k :
  (k <= 4)%nat ->
  map (fun i => DigitalWrite (nth i SWITCHES 0%nat) HIGH) (rev (seq (4 - k) k)) =
  closedInOrder k.
Proof.
  intros Hk. destruct k as [|[|[|[|[|k]]]]]; try reflexivity. lia.
Qed.

Lemma lessenDrop_until m :
  switchesInv m ->
  exists k,
    openSwitches m = (k + openSwitches (lessenDrop m))%nat /\
    lessenDrop m = afterClosing k m /\
    forall j, (j < k)%nat -> dropTooHigh (afterClosing j m) = true.
Proof.
  pattern m, (lessenDrop m). apply lessenDrop_rule; clear m.
  - intros m r Hc IH Hinv.
    pose proof (proj1 (dropTooHigh_true m) Hc) as [_ Hpos].
    destruct (addParallelResistor_inv m Hinv Hpos) as [Hinv' Ho].
    destruct (IH Hinv') as (k & Hok & Hr & Hj).
    exists (S k). split; [lia |]. split.
    + rewrite Hr. unfold afterClosing. symmetry. apply Nat.iter_succ_r.
    + intros [| j] Hlt; [exact Hc |].
      unfold afterClosing. rewrite Nat.iter_succ_r. apply Hj. lia.
  - intros m Hc Hinv. exists 0%nat.
    split; [reflexivity |]. split; [reflexivity |]. intros j Hlt. lia.
Qed.

(** C1, as amended: in a sample cycle whose known voltage exceeds 75% of the
    reference voltage when the search starts, [readVoltages] closes the
    switches one at a time in decreasing index of the table, from the
    100078 ohm resistor down to the 220 ohm one, writes no pin LOW during
    the search, closes a switch only while the voltages it has just read
    still show a drop above 75%, and so stops at the first reading with the
    known voltage at most 75% of the reference voltage, or when all four
    switches are closed; the cycle then goes on with the switches as they
    are. *)
Theorem search_closes_largest_first m :
  switchesInv m ->
  let m0 := searchEntry m in
  let m1 := lessenDrop m0 in
  exists k,
    (k <= 4)%nat /\
    m1 = afterClosing k m0 /\
    (forall j, (j < k)%nat ->
       referenceVoltage (afterClosing j m0) * 0.75 <
       knownVoltage (afterClosing j m0)) /\
    (k = 4%nat \/ knownVoltage m1 <= referenceVoltage m1 * 0.75) /\
    trace m1 = trace m0 ++ closedInOrder k /\
    enabledTaps m1 = skipn (4 - k) RESISTANCE_VALUES /\
    (referenceVoltage m0 * 0.75 < knownVoltage m0 -> (1 <= k)%nat) /\
    exec readVoltages m = exec afterSearch m1.
Proof.
  intros Hinv. cbv zeta.
  destruct (searchEntry_spec m Hinv) as (Hinv0 & H4 & _).
  pose proof (searchEntry_parallel m Hinv) as Hk0. cbv zeta in *.
  destruct (lessenDrop_spec _ Hinv0 Hk0) as (k & Hok & Ht & Hinv1 & _ & Hstop & Hgo).
  destruct (lessenDrop_until _ Hinv0) as (k' & Hok' & Hpath & Hwhile).
  cbv zeta in *. rewrite H4 in Hok, Hok'.
  assert (Hkk : k' = k) by lia. subst k'.
  assert (Ho1 : openSwitches (lessenDrop (searchEntry m)) = (4 - k)%nat) by lia.
  exists k. split; [lia |]. split; [exact Hpath |].
  split; [| split; [| split; [| split; [| split]]]].
  - intros j Hj. apply dropTooHigh_true. now apply Hwhile.
  - destruct Hstop as [H0 | Hle]; [left; lia | right; exact Hle].
  - rewrite Ht, Ho1. f_equal. apply closedInOrder_indices. lia.
  - rewrite enabledTaps_skipn, Ho1 by assumption. reflexivity.
  - intros Hdrop. apply Hgo. apply dropTooHigh_true. split; [exact Hdrop |].
    rewrite H4. lia.
  - apply readVoltages_parts.
Qed.

(** C5: in every state the search passes through, the known resistance is
    the reciprocal-sum combination of the base value and the resistors whose
    switch is closed, and closing one more switch makes it strictly smaller;
    the same combination holds when [readVoltages] returns; and the base
    value in parallel with 220 ohm rounds to 219.95 ohm. *)
Theorem known_resistance_is_parallel m :
  switchesInv m ->
  (forall s, searchState (searchEntry m) s ->
     knownResistance s == parallel (RESISTOR_1M :: enabledTaps s) /\
     (dropTooHigh s = true ->
      knownResistance (exec addParallelResistor s) < knownResistance s)) /\
  knownResistance (exec readVoltages m) ==
    parallel (RESISTOR_1M :: enabledTaps (exec readVoltages m)) /\
  219.945 <= parallel [RESISTOR_1M; 220] < 219.955.
Proof.
  intros Hinv. split; [| split].
  - intros s Hs. destruct (searchState_inv m s Hinv Hs) as [Hinvs Hks].
    split; [exact Hks |]. intros Hc.
    apply dropTooHigh_true in Hc. destruct Hc as [_ Hpos].
    now apply addParallelResistor_parallel.
  - rewrite readVoltages_parts.
    destruct (searchState_inv m _ Hinv (lessenDrop_reached (searchEntry m)))
      as [_ Hk].
    pose proof (afterSearch_fields (lessenDrop (searchEntry m)))
      as (_ & Hp & Hr & _).
    cbv zeta in Hp, Hr. unfold enabledTaps in *. rewrite Hp, Hr. exact Hk.
  - split; [apply Qle_bool_iff | apply Qnot_le_lt; intros H; apply Qle_bool_iff in H];
      vm_compute in *; congruence.
Qed.

Lemma displayMeasurement_fields m :
  let m' := exec displayMeasurement m in
  openSwitches m' = openSwitches m /\
  pins m' = pins m /\
  gain m' = gain m /\
  adc m' = adc m.
Proof.
  cbv zeta. unfold displayMeasurement, exec, bind, get.
  cbn -[Qltb Qgeb pow Qmult Qminus].
  destruct (Qltb (unknownResistance m) 0 || Qgeb (unknownResistance m) (1.5 * pow 10 6));
    repeat split.
Qed.

(** *** The invariant over the run of the sketch *)

Lemma switchesInv_ext m m' :
  openSwitches m' = openSwitches m -> pins m' = pins m ->
  switchesInv m -> switchesInv m'.
Proof. unfold switchesInv. intros -> ->. exact (fun H => H). Qed.

Lemma readVoltages_inv m :
  switchesInv m ->
  switchesInv (exec readVoltages m) /\ 0 < knownResistance (exec readVoltages m).
Proof.
  intros Hinv. rewrite readVoltages_parts.
  destruct (searchState_inv m _ Hinv (lessenDrop_reached (searchEntry m)))
    as [Hinv1 Hk].
  pose proof (afterSearch_fields (lessenDrop (searchEntry m)))
    as (Ho & Hp & Hr & _).
  cbv zeta in Ho, Hp, Hr. split.
  - exact (switchesInv_ext _ _ Ho Hp Hinv1).
  - rewrite Hr, Hk, enabledTaps_skipn by assumption.
    destruct Hinv1 as [Hle _].
    destruct (openSwitches (lessenDrop (searchEntry m))) as [|[|[|[|[|n]]]]];
      try lia; vm_compute; reflexivity.
Qed.

Lemma knownResistance_positive m :
  switchesInv m -> 0 < knownResistance (exec readVoltages m).
Proof. intros Hinv. apply (readVoltages_inv m Hinv). Qed.

Lemma sampleCycle_inv m : switchesInv m -> switchesInv (exec sampleCycle m).
Proof.
  intros Hinv. unfold sampleCycle. rewrite !exec_seq.
  apply (switchesInv_ext (exec readVoltages m)); try reflexivity.
  now apply readVoltages_inv.
Qed.

Lemma displayMeasurement_inv m :
  switchesInv m -> switchesInv (exec displayMeasurement m).
Proof.
  pose proof (displayMeasurement_fields m) as (Ho & Hp & _).
  exact (switchesInv_ext _ _ Ho Hp).
Qed.

Lemma running_switchesInv (w : W) m : running w m -> switchesInv m.
Proof.
  intros Hrun. induction Hrun as [| m _ IH | m _ IH].
  - apply switchesInv_intro; [cbn; lia | reflexivity ..].
  - now apply sampleCycle_inv.
  - now apply displayMeasurement_inv.
Qed.

(** *** The resistance calculation *)

Lemma readVoltages_average m :
  unknownResistance (exec readVoltages m) = unknownResistance m.
Proof.
  rewrite readVoltages_parts.
  pose proof (afterSearch_fields (lessenDrop (searchEntry m)))
    as (_ & _ & _ & _ & _ & Hu & _).
  pose proof (lessenDrop_frame (searchEntry m)) as (Hu' & _).
  pose proof (resetSwitches_frame m) as (Hu'' & _).
  cbv zeta in *. rewrite Hu, Hu'. exact Hu''.
Qed.

(** C3: in a sample cycle that reads a known voltage other than zero,
    [calculateCurrent] sets the current to the known voltage over the known
    resistance, which is not zero, [calculateResistance] takes the unknown
    voltage over that current, not zero either, as its estimate, and the
    running average becomes the mean of its value before the cycle and that
    estimate; the voltages and the known resistance are those
    [readVoltages] left. *)
Theorem sample_cycle_ohms_law m :
  switchesInv m ->
  ~ knownVoltage (exec readVoltages m) == 0 ->
  let m1 := exec readVoltages m in
  let m2 := exec calculateCurrent m1 in
  let m3 := exec calculateResistance m2 in
  let estimate := unknownVoltage m1 / current m2 in
  exec sampleCycle m = m3 /\
  ~ knownResistance m1 == 0 /\
  current m2 = knownVoltage m1 / knownResistance m1 /\
  ~ current m2 == 0 /\
  current m3 = current m2 /\
  unknownResistance m2 = unknownResistance m /\
  unknownResistance m3 = (unknownResistance m + estimate) / 2.
Proof.
  intros Hinv Hkv. cbv zeta.
  assert (Hu : unknownResistance (exec calculateCurrent (exec readVoltages m)) =
               unknownResistance m) by apply readVoltages_average.
  assert (Hr : unknownResistance
                 (exec calculateResistance
                    (exec calculateCurrent (exec readVoltages m))) =
               (unknownResistance m +
                unknownVoltage (exec readVoltages m) /
                current (exec calculateCurrent (exec readVoltages m))) / 2).
  { rewrite <- Hu. reflexivity. }
  assert (Hnz : ~ knownResistance (exec readVoltages m) == 0).
  { pose proof (knownResistance_positive m Hinv). lra. }
  split; [unfold sampleCycle; now rewrite !exec_seq |].
  split; [exact Hnz |]. split; [reflexivity |].
  split; [| split; [reflexivity | split; [exact Hu | exact Hr]]].
  change (~ knownVoltage (exec readVoltages m) /
            knownResistance (exec readVoltages m) == 0).
  intros H. apply Hkv.
  setoid_replace (knownVoltage (exec readVoltages m))
    with (knownVoltage (exec readVoltages m) /
          knownResistance (exec readVoltages m) *
          knownResistance (exec readVoltages m)) by (field; exact Hnz).
  rewrite H. ring.
Qed.

Lemma averageAfter_frame n m :
  unknownVoltage (averageAfter n m) = unknownVoltage m /\
  current (averageAfter n m) = current m.
Proof.
  induction n as [| n [IHv IHi]]; [split; reflexivity |].
  split; [exact IHv | exact IHi].
Qed.

Lemma averageAfter_S n m :
  unknownResistance (averageAfter (S n) m) =
  (unknownResistance (averageAfter n m) + unknownVoltage m / current m) / 2.
Proof.
  destruct (averageAfter_frame n m) as [Hv Hi].
  rewrite <- Hv, <- Hi. reflexivity.
Qed.

(** *** The display *)

(** C6: a refresh of the display with the running average negative or at
    least 1.5e6 ohm resets the average to zero, sends the out-of-range
    indicator and the supported range to the display, and changes nothing
    else; the refresh always returns. *)
Theorem display_out_of_range m :
  unknownResistance m < 0 \/ 1500000 <= unknownResistance m ->
  let m' := exec displayMeasurement m in
  unknownResistance m' = 0 /\
  trace m' = trace m ++ shownOutOfRange /\
  m' = set_trace (trace m ++ shownOutOfRange) (set_unknownResistance 0 m).
Proof.
  intros H. cbv zeta. rewrite (displayMeasurement_out m H).
  repeat split.
Qed.


(** C9: a refresh with the running average in range changes neither the
    average nor any other variable of the measurement; only the display
    receives something. *)
Theorem display_keeps_measurement m :
  0 <= unknownResistance m -> unknownResistance m < 1500000 ->
  let m' := exec displayMeasurement m in
  unknownResistance m' = unknownResistance m /\
  knownResistance m' = knownResistance m /\
  unknownVoltage m' = unknownVoltage m /\
  knownVoltage m' = knownVoltage m /\
  referenceVoltage m' = referenceVoltage m /\
  current m' = current m /\
  openSwitches m' = openSwitches m /\
  pins m' = pins m /\
  gain m' = gain m /\
  adc m' = adc m.
Proof.
  intros H0 H1. cbv zeta. rewrite (displayMeasurement_in m H0 H1).
  repeat split.
Qed.


(** *** The gain *)


(** C8: when [readVoltages] returns the converter is back at the default
    2/3x gain, its last call to a peripheral being that reset; so is it
    after the whole sample cycle and after a refresh of the display, and the
    next cycle takes its first reading of the unknown voltage, from which
    the tier is chosen, at that gain.  The converter holds one gain at a
    time, the field [gain]. *)
Theorem gain_reset_after_reading m :
  gain (exec readVoltages m) = GAIN_TWOTHIRDS /\
  (exists t, trace (exec readVoltages m) = t ++ [SetGain GAIN_TWOTHIRDS]) /\
  gain (exec sampleCycle m) = GAIN_TWOTHIRDS /\
  gain (exec displayMeasurement (exec sampleCycle m)) = GAIN_TWOTHIRDS /\
  gain (exec readUnknownVoltage (lessenDrop (searchEntry (exec sampleCycle m)))) =
    GAIN_TWOTHIRDS.
Proof.
  assert (H1 : forall m', gain (exec readVoltages m') = GAIN_TWOTHIRDS).
  { intros m'. rewrite readVoltages_parts. apply afterSearch_fields. }
  assert (H2 : forall m', gain (exec sampleCycle m') = GAIN_TWOTHIRDS).
  { intros m'. unfold sampleCycle. rewrite !exec_seq. exact (H1 m'). }
  split; [apply H1 |]. split; [| split; [apply H2 | split]].
  - unfold readVoltages. rewrite !exec_seq. eexists. reflexivity.
  - pose proof (displayMeasurement_fields (exec sampleCycle m)) as (_ & _ & Hg & _).
    cbv zeta in Hg. rewrite Hg. apply H2.
  - pose proof (lessenDrop_frame (searchEntry (exec sampleCycle m))) as (_ & _ & _ & Hg).
    pose proof (resetSwitches_frame (exec sampleCycle m)) as (_ & _ & _ & Hg' & _).
    cbv zeta in *.
    change (gain (lessenDrop (searchEntry (exec sampleCycle m))) = GAIN_TWOTHIRDS).
    rewrite Hg. change (gain (resetSwitches (exec sampleCycle m)) = GAIN_TWOTHIRDS).
    rewrite Hg'. apply H2.
Qed.

Lemma Qgtb_spec a b : reflect (b < a) (Qgtb a b).
Proof.
  unfold Qgtb. destruct (Qle_bool a b) eqn:E; constructor.
  - apply Qle_bool_iff in E. now apply Qle_not_lt.
  - apply Qnot_le_lt. intros H. apply Qle_bool_iff in H. congruence.
Qed.

Lemma Qltb_spec a b : reflect (a < b) (Qltb a b).
Proof. exact (Qgtb_spec b a). Qed.

(** Away from the interval (-1.024, -0.512] the chosen tier is the
    narrowest one that holds the unknown voltage. *)
Lemma adjustGain_narrowest_elsewhere m :
  ~ (-1.024 < unknownVoltage m /\ unknownVoltage m <= -0.512) ->
  gain (exec adjustGain m) = narrowestTier (unknownVoltage m).
Proof.
  intros Hout. unfold adjustGain, narrowestTier, tiers, firstTier, exec, bind, get.
  cbn [fst snd]. change (- (0.256)) with (-0.256). change (- (0.512)) with (-0.512).
  change (- (1.024)) with (-1.024). change (- (2.048)) with (-2.048).
  change (- (4.096)) with (-4.096).
  set (v := unknownVoltage m) in *.
  repeat match goal with
         | |- context [Qgtb ?a ?b] =>
             destruct (Qgtb_spec a b); cbn [andb]; try reflexivity
         | |- context [Qltb ?a ?b] =>
             destruct (Qltb_spec a b); cbn [andb]; try reflexivity
         end; exfalso; lra.
Qed.

End Proofs.

(** ** Worked cycles on the scripted converter *)

Lemma afterSetup_inv (w : list Z) : switchesInv (afterSetup w).
Proof. apply switchesInv_intro; [cbn; lia | reflexivity ..]. Defined.

(** C2 at -0.6 V: the unknown voltage lies within the 4x range and outside
    the 8x range, and the cycle sets the 2x gain for the second reading. *)
Theorem adjustGain_skips_4x :
  let m := exec readUnknownVoltage (lessenDrop (searchEntry benchNegative)) in
  unknownVoltage m == -0.6 /\
  narrowestTier (unknownVoltage m) = GAIN_FOUR /\
  gain (exec adjustGain m) = GAIN_TWO /\
  trace (exec readVoltages benchNegative) = [SetGain GAIN_TWO; SetGain GAIN_TWOTHIRDS].
Proof. vm_compute. repeat split. Qed.

(** C1 as stated fails: with the known voltage at 95% of the reference the
    first switch closed is that of the 100078 ohm resistor, so the pin writes
    of the search are not a run that starts with the 220 ohm switch. *)
Lemma search_not_smallest_first :
  let m0 := searchEntry benchHighDrop in
  switchesInv benchHighDrop /\
  referenceVoltage m0 * 0.75 < knownVoltage m0 /\
  trace (lessenDrop m0) = trace m0 ++ [DigitalWrite res_100k HIGH] /\
  ~ exists k, trace (lessenDrop m0) = trace m0 ++ closedSmallestFirst k.
Proof.
  cbv zeta. split; [apply afterSetup_inv |]. split; [vm_compute; reflexivity |].
  assert (Ht : trace (lessenDrop (searchEntry benchHighDrop)) =
               trace (searchEntry benchHighDrop) ++ [DigitalWrite res_100k HIGH])
    by (vm_compute; reflexivity).
  split; [exact Ht |].
  intros [k Hk]. rewrite Ht in Hk. apply app_inv_head in Hk.
  destruct k as [| k]; discriminate Hk.
Qed.

(** The search on [benchHighDrop]: one switch closed, the 100078 ohm one. *)
Lemma search_closes_largest_first_witness :
  switchesInv benchHighDrop /\
  exists k,
    (k <= 4)%nat /\
    lessenDrop (searchEntry benchHighDrop) =
      afterClosing k (searchEntry benchHighDrop) /\
    trace (lessenDrop (searchEntry benchHighDrop)) =
      trace (searchEntry benchHighDrop) ++ closedInOrder k.
Proof.
  split; [apply afterSetup_inv |].
  destruct (search_closes_largest_first benchHighDrop (afterSetup_inv _))
    as (k & Hk & Hp & _ & _ & Ht & _).
  exists k. split; [exact Hk |]. split; [exact Hp | exact Ht].
Defined.

(** The known resistance on [benchHighDrop]: closing the first switch takes
    it below the base value. *)
Lemma known_resistance_is_parallel_witness :
  switchesInv benchHighDrop /\
  dropTooHigh (searchEntry benchHighDrop) = true /\
  knownResistance (exec addParallelResistor (searchEntry benchHighDrop)) <
    knownResistance (searchEntry benchHighDrop) /\
  knownResistance (exec readVoltages benchHighDrop) ==
    parallel (RESISTOR_1M :: enabledTaps (exec readVoltages benchHighDrop)).
Proof.
  pose proof (known_resistance_is_parallel benchHighDrop (afterSetup_inv _))
    as (Hs & Hr & _).
  split; [apply afterSetup_inv |]. split; [vm_compute; reflexivity |].
  split; [| exact Hr].
  apply (Hs (searchEntry benchHighDrop)); [constructor | vm_compute; reflexivity].
Defined.

(** An average of 2000000 ohm is shown as out of range and reset. *)
Lemma display_out_of_range_witness :
  unknownResistance (exec displayMeasurement (benchAverage 2000000)) = 0 /\
  trace (exec displayMeasurement (benchAverage 2000000)) = shownOutOfRange.
Proof.
  assert (H : unknownResistance (benchAverage 2000000) < 0 \/
              1500000 <= unknownResistance (benchAverage 2000000)).
  { right. vm_compute. discriminate. }
  destruct (display_out_of_range (benchAverage 2000000) H) as (H0 & Ht & _).
  split; [exact H0 | exact Ht].
Defined.


(** A refresh at 1000 ohm leaves the average at 1000 ohm. *)
Lemma display_keeps_measurement_witness :
  unknownResistance (exec displayMeasurement (benchAverage 1000)) = 1000.
Proof.
  assert (H0 : 0 <= unknownResistance (benchAverage 1000))
    by (vm_compute; discriminate).
  assert (H1 : unknownResistance (benchAverage 1000) < 1500000)
    by (vm_compute; reflexivity).
  exact (proj1 (display_keeps_measurement (benchAverage 1000) H0 H1)).
Defined.


(** ** Further properties of the sketch *)

Section Cycle.

Context {W : Type} {ads : ADS1115 W}.

Implicit Types m : Fw W.

(** *** The pin writes and gain changes of one cycle *)

Lemma opened_indices o :
  map (fun i => DigitalWrite (nth i SWITCHES 0%nat) LOW) (seq o (4 - o)) =
  map (fun p => DigitalWrite p LOW) (skipn o SWITCHES).
Proof. destruct o as [|[|[|[|[|o]]]]]; reflexivity. Qed.

Lemma afterSearch_trace m :
  exists g, trace (exec afterSearch m) =
            trace m ++ [SetGain g; SetGain GAIN_TWOTHIRDS].
Proof.
  unfold afterSearch, adjustGain, exec, bind, get.
  cbn -[readADC computeVolts Qle_bool].
  repeat match goal with
         | |- context [if ?b then _ else _] => destruct b
         end; eexists; cbn; rewrite <- app_assoc; reflexivity.
Qed.

(** X1: the first loop of [readVoltages] writes LOW to exactly the switches
    the previous cycle left closed, lowest table index first, and to no
    other pin; afterwards all four switches are open, [openSwitches] is 4
    and the known resistance is back at its base value. *)
Theorem reset_opens_closed_switches m :
  switchesInv m ->
  let m0 := exec removeParallelResistors m in
  trace m0 =
    trace m ++ map (fun p => DigitalWrite p LOW) (skipn (openSwitches m) SWITCHES) /\
  openSwitches m0 = 4%nat /\
  enabledTaps m0 = [] /\
  knownResistance m0 = RESISTOR_1M.
Proof.
  intros Hinv. cbv zeta.
  destruct (resetSwitches_spec m Hinv) as (Hr & H4 & Ht & _). cbv zeta in *.
  assert (Hinv0 : switchesInv (exec removeParallelResistors m))
    by exact (switchesInv_ext (resetSwitches m) _ eq_refl eq_refl Hr).
  split; [| split; [exact H4 | split; [| reflexivity]]].
  - change (trace (resetSwitches m) =
            trace m ++ map (fun p => DigitalWrite p LOW)
                           (skipn (openSwitches m) SWITCHES)).
    rewrite Ht, opened_indices. reflexivity.
  - rewrite (enabledTaps_skipn _ Hinv0).
    change (openSwitches (exec removeParallelResistors m))
      with (openSwitches (resetSwitches m)).
    rewrite H4. reflexivity.
Qed.

(** X2: one run of [readVoltages] sends, in this order, the LOW writes that
    open the switches left closed, at most four HIGH writes that close
    switches from the 100078 ohm one down, and exactly two gain changes, the
    second back to 2/3x; it sends nothing to the display, and the two
    calculations that end the sample cycle send nothing at all. *)
Theorem cycle_peripheral_calls m :
  switchesInv m ->
  exists k g,
    (k <= 4)%nat /\
    trace (exec readVoltages m) =
      trace m ++
      map (fun p => DigitalWrite p LOW) (skipn (openSwitches m) SWITCHES) ++
      closedInOrder k ++ [SetGain g; SetGain GAIN_TWOTHIRDS] /\
    openSwitches (exec readVoltages m) = (4 - k)%nat /\
    trace (exec sampleCycle m) = trace (exec readVoltages m).
Proof.
  intros Hinv.
  destruct (searchEntry_spec m Hinv) as (Hinv0 & H4 & _ & Ht0).
  pose proof (searchEntry_parallel m Hinv) as Hk0. cbv zeta in *.
  destruct (lessenDrop_spec _ Hinv0 Hk0) as (k & Hok & Ht & _).
  cbv zeta in *. rewrite H4 in Hok.
  destruct (afterSearch_trace (lessenDrop (searchEntry m))) as [g Hg].
  pose proof (afterSearch_fields (lessenDrop (searchEntry m))) as (Ho & _).
  cbv zeta in Ho.
  exists k, g. split; [lia |]. split; [| split].
  - rewrite readVoltages_parts, Hg, Ht, Ht0, opened_indices.
    replace (openSwitches (lessenDrop (searchEntry m))) with (4 - k)%nat by lia.
    rewrite closedInOrder_indices by lia.
    rewrite <- !app_assoc. reflexivity.
  - rewrite readVoltages_parts, Ho. lia.
  - unfold sampleCycle. rewrite !exec_seq. reflexivity.
Qed.

(** *** What holds between two activities of [loop] *)

Lemma displayMeasurement_cases m :
  exec displayMeasurement m =
    set_trace (trace m ++ shownOutOfRange) (set_unknownResistance 0 m) \/
  exists v, exec displayMeasurement m = set_trace (trace m ++ shownAs v) m.
Proof.
  destruct (Qlt_le_dec (unknownResistance m) 0) as [Hn | H0].
  - left. apply displayMeasurement_out. now left.
  - destruct (Qlt_le_dec (unknownResistance m) 1500000) as [H1 | H1].
    + right. eexists. now apply displayMeasurement_in.
    + left. apply displayMeasurement_out. now right.
Qed.

Lemma parallel_enabled_bounds m :
  switchesInv m ->
  knownResistance m == parallel (RESISTOR_1M :: enabledTaps m) ->
  176 < knownResistance m /\ knownResistance m <= RESISTOR_1M.
Proof.
  intros Hinv Hk. rewrite Hk, enabledTaps_skipn by assumption.
  destruct Hinv as [Hle _].
  destruct (openSwitches m) as [|[|[|[|[|n]]]]]; try lia;
    (split; [vm_compute; reflexivity | vm_compute; discriminate]).
Qed.

Lemma cycleInv_afterSetup (w : W) : cycleInv (afterSetup w).
Proof.
  split; [apply switchesInv_intro; [cbn; lia | reflexivity ..] |].
  split; [reflexivity | vm_compute; reflexivity].
Qed.

Lemma cycleInv_readVoltages m :
  switchesInv m -> cycleInv (exec readVoltages m).
Proof.
  intros Hinv. split; [now apply readVoltages_inv |]. rewrite readVoltages_parts.
  pose proof (afterSearch_fields (lessenDrop (searchEntry m)))
    as (_ & Hp & Hr & _ & _ & _ & _ & Hg').
  cbv zeta in Hp, Hr, Hg'. split; [exact Hg' |].
  unfold enabledTaps. rewrite Hp, Hr.
  apply (searchState_inv m _ Hinv (lessenDrop_reached (searchEntry m))).
Qed.

Lemma cycleInv_sampleCycle m : cycleInv m -> cycleInv (exec sampleCycle m).
Proof.
  intros [Hinv _]. unfold sampleCycle. rewrite !exec_seq.
  exact (cycleInv_readVoltages m Hinv).
Qed.

Lemma cycleInv_displayMeasurement m :
  cycleInv m -> cycleInv (exec displayMeasurement m).
Proof.
  intros (Hinv & Hg & Hk). split; [now apply displayMeasurement_inv |].
  destruct (displayMeasurement_cases m) as [E | [v E]]; rewrite E;
    (split; [exact Hg | exact Hk]).
Qed.

Lemma cycleInv_bounds m :
  cycleInv m -> 176 < knownResistance m /\ knownResistance m <= RESISTOR_1M.
Proof. intros (Hinv & _ & Hk). now apply parallel_enabled_bounds. Qed.

(** In every state the sketch is in between two activities of [loop],
    [openSwitches] is at most 4 and the closed switches are those of the
    table from that index on, the converter is at the 2/3x gain, and the
    known resistance is the parallel combination of the base value and the
    closed resistors, above 176 ohm and at most 990090 ohm. *)
Lemma running_invariant (w : W) m :
  running w m ->
  switchesInv m /\
  gain m = GAIN_TWOTHIRDS /\
  knownResistance m == parallel (RESISTOR_1M :: enabledTaps m) /\
  176 < knownResistance m /\ knownResistance m <= RESISTOR_1M.
Proof.
  intros Hrun.
  assert (H : cycleInv m).
  { induction Hrun as [| m _ IH | m _ IH].
    - apply cycleInv_afterSetup.
    - now apply cycleInv_sampleCycle.
    - now apply cycleInv_displayMeasurement. }
  pose proof (cycleInv_bounds m H) as Hb. destruct H as (Hinv & Hg & Hk).
  split; [exact Hinv |]. split; [exact Hg |]. split; [exact Hk | exact Hb].
Qed.

(** X3: every index the second loop of [readVoltages] uses into [SWITCHES]
    and [RESISTANCE_VALUES] lies within the tables: whenever the body of
    the loop runs, the decremented [openSwitches] is below 4 and both
    tables have an entry there. *)
Theorem search_index_in_bounds m s :
  switchesInv m ->
  searchState (searchEntry m) s ->
  dropTooHigh s = true ->
  let i := byte_dec (openSwitches s) in
  S i = openSwitches s /\
  (i < List.length SWITCHES)%nat /\
  (i < List.length RESISTANCE_VALUES)%nat /\
  openSwitches (exec addParallelResistor s) = i.
Proof.
  intros Hinv Hs Hc. cbv zeta.
  destruct (searchState_inv m s Hinv Hs) as [[Hle _] _].
  apply dropTooHigh_true in Hc. destruct Hc as [_ Hpos].
  pose proof (addParallelResistor_fields s) as (Ho & _). cbv zeta in Ho.
  destruct (openSwitches s) as [| n] eqn:En; [lia |].
  rewrite byte_dec_S in * by lia. cbn [List.length SWITCHES RESISTANCE_VALUES].
  repeat split; lia.
Qed.

(** X4: after a sample cycle the known resistance is above 176 ohm and at
    most 990090 ohm, so [calculateCurrent] never divides by zero, and the
    current it leaves is zero exactly when the known voltage is: that is
    the one case in which [calculateResistance] divides by zero. *)
Theorem current_zero_iff_known_voltage_zero m :
  switchesInv m ->
  let m' := exec sampleCycle m in
  176 < knownResistance m' /\ knownResistance m' <= RESISTOR_1M /\
  current m' == knownVoltage m' / knownResistance m' /\
  (current m' == 0 <-> knownVoltage m' == 0).
Proof.
  intros Hinv. cbv zeta. unfold sampleCycle. rewrite !exec_seq.
  set (m1 := exec readVoltages m).
  change (176 < knownResistance m1 /\ knownResistance m1 <= RESISTOR_1M /\
          knownVoltage m1 / knownResistance m1 ==
            knownVoltage m1 / knownResistance m1 /\
          (knownVoltage m1 / knownResistance m1 == 0 <-> knownVoltage m1 == 0)).
  assert (Hb : 176 < knownResistance m1 /\ knownResistance m1 <= RESISTOR_1M).
  { destruct (readVoltages_inv m Hinv) as [Hinv1 _]. fold m1 in Hinv1.
    apply parallel_enabled_bounds; [exact Hinv1 |].
    unfold m1. rewrite readVoltages_parts.
    pose proof (afterSearch_fields (lessenDrop (searchEntry m)))
      as (_ & Hp & Hr & _).
    cbv zeta in Hp, Hr. unfold enabledTaps. rewrite Hp, Hr.
    apply (searchState_inv m _ Hinv (lessenDrop_reached (searchEntry m))). }
  destruct Hb as [Hlo Hhi].
  split; [exact Hlo |]. split; [exact Hhi |]. split; [reflexivity |].
  assert (Hnz : ~ knownResistance m1 == 0) by lra.
  split; intros H.
  - assert (E : knownVoltage m1 ==
                knownVoltage m1 / knownResistance m1 * knownResistance m1)
      by (field; exact Hnz).
    rewrite E, H. ring.
  - rewrite H. field. exact Hnz.
Qed.

End Cycle.

Section GainAndDisplay.

Context {W : Type} {ads : ADS1115 W}.

Implicit Types m : Fw W.

(** *** The gain adjustment *)

(** X5: [adjustGain] changes the gain exactly once and touches nothing else,
    and the tier it sets never excludes the voltage it was chosen from:
    either it is the default 2/3x tier or the unknown voltage lies strictly
    inside the range of the tier, the 4x tier with its lower test at -0.124
    included. *)
Theorem adjustGain_range_holds_voltage m :
  let g := gain (exec adjustGain m) in
  exec adjustGain m = set_trace (trace m ++ [SetGain g]) (set_gain g m) /\
  (g = GAIN_TWOTHIRDS \/
   exists r, In (g, r) tiers /\ - r < unknownVoltage m /\ unknownVoltage m < r).
Proof.
  cbv zeta. unfold adjustGain, exec, bind, get. cbn [fst snd].
  set (v := unknownVoltage m).
  repeat match goal with
         | |- context [Qgtb ?a ?b] => destruct (Qgtb_spec a b); cbn [andb]
         | |- context [Qltb ?a ?b] => destruct (Qltb_spec a b); cbn [andb]
         end;
    (split; [reflexivity |]); cbn [gain set_gain set_trace setGain snd];
    try (left; reflexivity);
    right; eexists; (split; [cbn; eauto 8 |]); split; lra.
Qed.

(** X6: the tier [adjustGain] sets is the narrowest one whose range holds
    the unknown voltage exactly when that voltage is not in the interval
    from -1.024 V (excluded) to -0.512 V (included); inside it the 2x tier
    is set where the 4x tier is the narrowest. *)
Theorem adjustGain_narrowest_iff m :
  (gain (exec adjustGain m) = narrowestTier (unknownVoltage m) <->
   ~ (-1.024 < unknownVoltage m /\ unknownVoltage m <= -0.512)) /\
  (-1.024 < unknownVoltage m /\ unknownVoltage m <= -0.512 ->
   gain (exec adjustGain m) = GAIN_TWO /\
   narrowestTier (unknownVoltage m) = GAIN_FOUR).
Proof.
  assert (Hin : -1.024 < unknownVoltage m /\ unknownVoltage m <= -0.512 ->
                gain (exec adjustGain m) = GAIN_TWO /\
                narrowestTier (unknownVoltage m) = GAIN_FOUR).
  { intros [Hlo Hhi].
    unfold adjustGain, narrowestTier, tiers, firstTier, exec, bind, get.
    cbn [fst snd]. change (- (0.256)) with (-0.256).
    change (- (0.512)) with (-0.512). change (- (1.024)) with (-1.024).
    change (- (2.048)) with (-2.048). change (- (4.096)) with (-4.096).
    set (v := unknownVoltage m) in *.
    repeat match goal with
           | |- context [Qgtb ?a ?b] =>
               destruct (Qgtb_spec a b); cbn [andb]; try (exfalso; lra)
           | |- context [Qltb ?a ?b] =>
               destruct (Qltb_spec a b); cbn [andb]; try (exfalso; lra)
           end; split; reflexivity. }
  split; [| exact Hin]. split.
  - intros Heq Hint. destruct (Hin Hint) as [H2 H4]. congruence.
  - apply adjustGain_narrowest_elsewhere.
Qed.

(** X7: the tier is chosen from a first reading of the unknown voltage taken
    at the gain the cycle started with, and the unknown voltage
    [readVoltages] leaves is the second reading, taken and converted under
    the tier [adjustGain] set, before the gain goes back to 2/3x. *)
Theorem unknown_voltage_from_second_reading m :
  let m1 := exec readUnknownVoltage (lessenDrop (searchEntry m)) in
  let m2 := exec adjustGain m1 in
  let second := readADC Differential_0_1 (pins m2) (gain m2) (adc m2) in
  gain m1 = gain m /\
  unknownVoltage (exec readVoltages m) = computeVolts (gain m2) (fst second) /\
  adc (exec readVoltages m) = snd second.
Proof.
  cbv zeta. split.
  - pose proof (lessenDrop_frame (searchEntry m)) as (_ & _ & _ & Hg).
    pose proof (resetSwitches_frame m) as (_ & _ & _ & Hg' & _).
    cbv zeta in *.
    change (gain (lessenDrop (searchEntry m)) = gain m). rewrite Hg. exact Hg'.
  - rewrite readVoltages_parts. unfold afterSearch. rewrite !exec_seq.
    split; reflexivity.
Qed.

(** *** The value on the display *)

Lemma shown_value m :
  0 <= unknownResistance m -> unknownResistance m < 1500000 ->
  exists v,
    exec displayMeasurement m = set_trace (trace m ++ shownAs v) m /\
    (unknownResistance m - LEAD_RESISTANCE < 500000 /\
     v == unknownResistance m - LEAD_RESISTANCE \/
     500000 <= unknownResistance m - LEAD_RESISTANCE /\
     v == (unknownResistance m - LEAD_RESISTANCE) * 1.025).
Proof.
  intros H0 H1. rewrite (displayMeasurement_in m H0 H1).
  eexists. split; [reflexivity |].
  destruct (Qgeb (unknownResistance m - LEAD_RESISTANCE) (5.0 * pow 10 5)) eqn:E.
  - right. apply highEnd_iff in E. split; [exact E | reflexivity].
  - left. split; [| reflexivity].
    apply Qnot_le_lt. intros Hle. apply highEnd_iff in Hle. congruence.
Qed.

(** X10: a refresh that finds the average out of range resets it to 0, so a
    second refresh with no sample in between no longer shows the
    out-of-range message: it prints minus the lead resistance, a value
    between -0.08 and -0.0799999 ohm. *)
Theorem display_twice_out_of_range m :
  unknownResistance m < 0 \/ 1500000 <= unknownResistance m ->
  exists v,
    exec displayMeasurement (exec displayMeasurement m) =
      set_trace (trace m ++ shownOutOfRange ++ shownAs v)
                (set_unknownResistance 0 m) /\
    v == - LEAD_RESISTANCE /\
    -0.08 < v /\ v < -0.0799999.
Proof.
  intros H. rewrite (displayMeasurement_out m H).
  set (m' := set_trace _ _).
  assert (H0 : 0 <= unknownResistance m') by (cbn; lra).
  assert (H1 : unknownResistance m' < 1500000) by (cbn; lra).
  destruct (shown_value m' H0 H1) as (v & E & C).
  exists v. rewrite E. split.
  - unfold m'. cbn [trace set_trace]. rewrite <- app_assoc. reflexivity.
  - cbn [unknownResistance m' set_trace set_unknownResistance] in C.
    unfold LEAD_RESISTANCE in *.
    destruct C as [[_ V] | [L _]]; [| exfalso; lra].
    split; [rewrite V; ring | split; lra].
Qed.

(** *** The running average *)

(** X11: with a current other than zero and the same estimate in every
    run, the running average stays between its starting value and the
    estimate: it never overshoots. *)
Theorem running_average_between n m :
  ~ current m == 0 ->
  let E := unknownVoltage m / current m in
  let A0 := unknownResistance m in
  Qmin A0 E <= unknownResistance (averageAfter n m) /\
  unknownResistance (averageAfter n m) <= Qmax A0 E.
Proof.
  intros _. cbv zeta. set (E := unknownVoltage m / current m).
  pose proof (Q.le_min_l (unknownResistance m) E) as Hml.
  pose proof (Q.le_min_r (unknownResistance m) E) as Hmr.
  pose proof (Q.le_max_l (unknownResistance m) E) as HMl.
  pose proof (Q.le_max_r (unknownResistance m) E) as HMr.
  induction n as [| n [IHlo IHhi]].
  - split; assumption.
  - rewrite averageAfter_S. fold E.
    set (a := unknownResistance (averageAfter n m)) in *.
    setoid_replace ((a + E) / 2) with ((1 # 2) * a + (1 # 2) * E) by field.
    split; lra.
Qed.

End GainAndDisplay.

Section ProgramProofs.

Context {W : Type} {ads : ADS1115 W} {int : IntArith}.

Implicit Types s : Sketch W.

(** *** Running a function of the sketch beside the timestamps *)

Lemma exec_inFw {A} (c : Cmd W A) s :
  exec (inFw c) s = set_fw (exec c (fw s)) s.
Proof. unfold exec, inFw. destruct (c (fw s)). reflexivity. Qed.

Lemma exec_get {S A B} (f : S -> A) (k : A -> State S B) (x : S) :
  exec (a <- get f ;; k a) x = exec (k (f x)) x.
Proof. reflexivity. Qed.

Lemma exec_modify {S} (f : S -> S) (x : S) : exec (modify f) x = f x.
Proof. reflexivity. Qed.

Lemma exec_ret {S A} (a : A) (x : S) : exec (ret a) x = x.
Proof. reflexivity. Qed.

(** One call of [loop], by which of its two activities are due. *)
Lemma loop_steps t s :
  let sample := (SAMPLE_RATE <=? int_sub t (lastSample s))%Z in
  let display := (DISPLAY_RATE <=? int_sub t (lastDisplay s))%Z in
  let m1 := if sample then exec sampleCycle (fw s) else fw s in
  exec (loop t) s =
  mkSketch (if display then exec displayMeasurement m1 else m1)
           (if sample then t else lastSample s)
           (if display then t else lastDisplay s)
           (config s).
Proof.
  cbv zeta. unfold loop. rewrite exec_get, exec_seq, exec_get.
  assert (E1 : exec (if (SAMPLE_RATE <=? int_sub t (lastSample s))%Z
                     then modify (set_lastSample t) ;; inFw readVoltages ;;
                          inFw calculateCurrent ;; inFw calculateResistance
                     else ret tt) s =
               mkSketch (if (SAMPLE_RATE <=? int_sub t (lastSample s))%Z
                         then exec sampleCycle (fw s) else fw s)
                        (if (SAMPLE_RATE <=? int_sub t (lastSample s))%Z
                         then t else lastSample s)
                        (lastDisplay s) (config s)).
  { destruct (SAMPLE_RATE <=? int_sub t (lastSample s))%Z.
    - rewrite !exec_seq, !exec_inFw, exec_modify. unfold sampleCycle.
      rewrite !exec_seq. reflexivity.
    - rewrite exec_ret. destruct s; reflexivity. }
  rewrite E1. cbn [lastDisplay].
  destruct (DISPLAY_RATE <=? int_sub t (lastDisplay s))%Z.
  - rewrite exec_seq, exec_inFw, exec_modify. reflexivity.
  - rewrite exec_ret. reflexivity.
Qed.

(** *** [setup] *)

Lemma setupPeripherals_fields s :
  let s' := exec setupPeripherals s in
  trace (fw s') =
    trace (fw s) ++ [DigitalWrite res_100k LOW; DigitalWrite res_10k LOW;
                     DigitalWrite res_1k LOW; DigitalWrite res_220 LOW] /\
  (pins (fw s') res_220 = LOW /\ pins (fw s') res_1k = LOW /\
   pins (fw s') res_10k = LOW /\ pins (fw s') res_100k = LOW) /\
  openSwitches (fw s') = openSwitches (fw s) /\
  gain (fw s') = gain (fw s) /\
  knownResistance (fw s') = knownResistance (fw s) /\
  unknownResistance (fw s') = unknownResistance (fw s) /\
  lastSample s' = lastSample s /\
  lastDisplay s' = lastDisplay s /\
  config s' =
    config s ++ [SerialBegin 9600; LcdInit; LcdBacklight;
                 PinModeOutput res_100k; PinModeOutput res_10k;
                 PinModeOutput res_1k; PinModeOutput res_220].
Proof.
  destruct s as [m ls ld cf]. destruct m. cbv -[app].
  rewrite <- !app_assoc. repeat split.
Qed.

Lemma setup_true s :
  setup true s =
  Ready (mkSketch (set_knownResistance RESISTOR_1M (fw (exec setupPeripherals s)))
                  0 0 (config (exec setupPeripherals s))).
Proof.
  unfold setup. cbn [negb]. generalize (exec setupPeripherals s). intros s1.
  rewrite !exec_seq, exec_inFw, !exec_modify. reflexivity.
Qed.

Lemma setup_false s :
  setup false s =
  Halted (set_fw (exec (lcd_print (Lit "ADC Fail")) (fw (exec setupPeripherals s)))
                 (exec setupPeripherals s)).
Proof.
  unfold setup. cbn [negb]. generalize (exec setupPeripherals s). intros s1.
  rewrite exec_inFw. reflexivity.
Qed.

Lemma setup_cycleInv s :
  openSwitches (fw s) = 4%nat ->
  gain (fw s) = GAIN_TWOTHIRDS ->
  let m := set_knownResistance RESISTOR_1M (fw (exec setupPeripherals s)) in
  cycleInv m /\ enabledTaps m = [].
Proof.
  intros Ho Hg.
  pose proof (setupPeripherals_fields s)
    as (_ & (P0 & P1 & P2 & P3) & Ho' & Hg' & _).
  cbv zeta in *.
  generalize dependent (fw (exec setupPeripherals s)). intros m P0 P1 P2 P3 Ho' Hg'.
  assert (Hinv : switchesInv (set_knownResistance RESISTOR_1M m)).
  { apply switchesInv_intro; cbn [openSwitches pins set_knownResistance];
      rewrite ?Ho', ?Ho; [lia | assumption ..]. }
  assert (He : enabledTaps (set_knownResistance RESISTOR_1M m) = []).
  { rewrite (enabledTaps_skipn _ Hinv). cbn [openSwitches set_knownResistance].
    rewrite Ho', Ho. reflexivity. }
  split; [| exact He].
  split; [exact Hinv |]. split; [cbn [gain set_knownResistance]; congruence |].
  rewrite He. cbn [knownResistance set_knownResistance].
  unfold parallel, RESISTOR_1M. cbn [fold_right]. field.
Qed.

(** X12: when the converter answers, [setup] returns with the four switch
    pins written LOW (the 100 kohm pin first), the known resistance at its
    base value, both timestamps at 0 and the running average untouched; if
    [openSwitches] is at its initializer 4 and the converter at its default
    gain, the state it leaves satisfies the invariant the sample cycle
    relies on. *)
Theorem setup_establishes_invariant s :
  openSwitches (fw s) = 4%nat ->
  gain (fw s) = GAIN_TWOTHIRDS ->
  exists s',
    setup true s = Ready s' /\
    cycleInv (fw s') /\
    enabledTaps (fw s') = [] /\
    knownResistance (fw s') = RESISTOR_1M /\
    lastSample s' = 0%Z /\ lastDisplay s' = 0%Z /\
    unknownResistance (fw s') = unknownResistance (fw s) /\
    trace (fw s') =
      trace (fw s) ++ [DigitalWrite res_100k LOW; DigitalWrite res_10k LOW;
                       DigitalWrite res_1k LOW; DigitalWrite res_220 LOW].
Proof.
  intros Ho Hg.
  pose proof (setupPeripherals_fields s) as (Ht & _ & _ & _ & _ & Hu & _).
  destruct (setup_cycleInv s Ho Hg) as [Hinv He]. cbv zeta in *.
  rewrite setup_true.
  generalize dependent (exec setupPeripherals s). intros s1 Ht Hu Hinv He.
  eexists. split; [reflexivity |]. cbn [fw lastSample lastDisplay].
  split; [exact Hinv |]. split; [exact He |].
  split; [reflexivity |]. split; [reflexivity |]. split; [reflexivity |].
  split; [exact Hu | exact Ht].
Qed.

(** X13: when the converter does not answer, [setup] never returns: it has
    written the four switch pins LOW, prints "ADC Fail" and stays there,
    with every switch open, the known resistance and the timestamps as they
    were; [loop] is never reached. *)
Theorem setup_halts_when_converter_fails s :
  exists s',
    setup false s = Halted s' /\
    trace (fw s') =
      trace (fw s) ++ [DigitalWrite res_100k LOW; DigitalWrite res_10k LOW;
                       DigitalWrite res_1k LOW; DigitalWrite res_220 LOW;
                       LcdPrint (Lit "ADC Fail")] /\
    enabledTaps (fw s') = [] /\
    knownResistance (fw s') = knownResistance (fw s) /\
    lastSample s' = lastSample s /\
    lastDisplay s' = lastDisplay s.
Proof.
  pose proof (setupPeripherals_fields s)
    as (Ht & (P0 & P1 & P2 & P3) & _ & _ & Hk & _ & Hs & Hd & _).
  cbv zeta in *. rewrite setup_false.
  generalize dependent (exec setupPeripherals s).
  intros s1 Ht P0 P1 P2 P3 Hk Hs Hd.
  eexists. split; [reflexivity |].
  cbn [fw lastSample lastDisplay set_fw].
  split; [| split; [| split; [exact Hk | split; [exact Hs | exact Hd]]]].
  - change (trace (fw s1) ++ [LcdPrint (Lit "ADC Fail")] =
            trace (fw s) ++ [DigitalWrite res_100k LOW; DigitalWrite res_10k LOW;
                             DigitalWrite res_1k LOW; DigitalWrite res_220 LOW;
                             LcdPrint (Lit "ADC Fail")]).
    rewrite Ht, <- app_assoc. reflexivity.
  - unfold enabledTaps. cbn [combine SWITCHES RESISTANCE_VALUES filter fst].
    change (pins (exec (lcd_print (Lit "ADC Fail")) (fw s1))) with (pins (fw s1)).
    rewrite P0, P1, P2, P3. reflexivity.
Qed.

(** *** [loop] *)

Lemma runLoop_cycleInv ts s : cycleInv (fw s) -> cycleInv (fw (runLoop ts s)).
Proof.
  revert s. induction ts as [| t ts IH]; intros s Hinv; [exact Hinv |].
  cbn [runLoop fold_left]. apply IH. rewrite loop_steps. cbn [fw].
  destruct (SAMPLE_RATE <=? int_sub t (lastSample s))%Z,
           (DISPLAY_RATE <=? int_sub t (lastDisplay s))%Z;
    auto using cycleInv_sampleCycle, cycleInv_displayMeasurement.
Qed.

(** X14: whatever times [loop] is called at and whatever the subtraction of
    the timestamps does on overflow, the state after [setup] and any number
    of calls of [loop] satisfies the invariant of the sample cycle, with the
    known resistance above 176 ohm and at most 990090 ohm: no table is
    indexed out of range and [calculateCurrent] never divides by zero. *)
Theorem sketch_keeps_invariant s ts :
  openSwitches (fw s) = 4%nat ->
  gain (fw s) = GAIN_TWOTHIRDS ->
  exists s0,
    setup true s = Ready s0 /\
    cycleInv (fw (runLoop ts s0)) /\
    176 < knownResistance (fw (runLoop ts s0)) /\
    knownResistance (fw (runLoop ts s0)) <= RESISTOR_1M.
Proof.
  intros Ho Hg.
  destruct (setup_cycleInv s Ho Hg) as [Hinv _]. cbv zeta in Hinv.
  rewrite setup_true.
  generalize dependent (exec setupPeripherals s). intros s1 Hinv.
  eexists. split; [reflexivity |].
  match goal with |- cycleInv (fw (runLoop ts ?s0)) /\ _ =>
    pose proof (runLoop_cycleInv ts s0 Hinv) as H end.
  split; [exact H | exact (cycleInv_bounds _ H)].
Qed.

(** X15: when the timestamps are in order and the time since the last
    refresh fits an [int], one call of [loop] samples first and refreshes
    the display second, keeps the timestamps in order, and refreshes the
    display only in a call whose time is that of the latest sample. *)
Theorem loop_display_is_fresh t s :
  (lastDisplay s <= lastSample s <= t)%Z ->
  (t - lastDisplay s <= INT_MAX)%Z ->
  let s' := exec (loop t) s in
  let sample := (SAMPLE_RATE <=? t - lastSample s)%Z in
  let display := (DISPLAY_RATE <=? t - lastDisplay s)%Z in
  let m1 := if sample then exec sampleCycle (fw s) else fw s in
  fw s' = (if display then exec displayMeasurement m1 else m1) /\
  (lastDisplay s' <= lastSample s' <= t)%Z /\
  (display = true -> lastSample s' = t /\ lastDisplay s' = t).
Proof.
  intros Hord Hfit. cbv zeta. rewrite loop_steps. cbn [fw lastSample lastDisplay].
  rewrite !int_sub_exact by lia.
  unfold SAMPLE_RATE, DISPLAY_RATE.
  destruct (1 <=? t - lastSample s)%Z eqn:E1, (100 <=? t - lastDisplay s)%Z eqn:E2;
    rewrite ?Z.leb_le, ?Z.leb_gt in *;
    (split; [reflexivity |]); (split; [lia |]); intros H;
    try discriminate H; split; lia.
Qed.

(** X16: [loop] called a second time at the same time does nothing: at most
    one sample and one refresh are made per value of the clock, however
    often [loop] runs. *)
Theorem loop_same_time_idle t s :
  (0 <= INT_MAX)%Z ->
  exec (loop t) (exec (loop t) s) = exec (loop t) s.
Proof.
  intros Hmax.
  assert (Hz : int_sub t t = 0%Z).
  { rewrite int_sub_exact by lia. lia. }
  rewrite (loop_steps t (exec (loop t) s)). rewrite (loop_steps t s).
  cbn [fw lastSample lastDisplay config].
  destruct (SAMPLE_RATE <=? int_sub t (lastSample s))%Z eqn:E1,
           (DISPLAY_RATE <=? int_sub t (lastDisplay s))%Z eqn:E2;
    rewrite ?Hz, ?E1, ?E2; reflexivity.
Qed.

End ProgramProofs.

(** ** Worked runs for the further properties *)

(** The state one cycle on [benchHighDrop] leaves: one switch closed. *)
Lemma oneClosed_inv : switchesInv (exec readVoltages benchHighDrop).
Proof. apply switchesInv_intro; [vm_compute; lia | vm_compute; reflexivity ..]. Defined.

Lemma reset_opens_closed_switches_witness :
  trace (exec removeParallelResistors (exec readVoltages benchHighDrop)) =
    trace (exec readVoltages benchHighDrop) ++ [DigitalWrite res_100k LOW] /\
  enabledTaps (exec removeParallelResistors (exec readVoltages benchHighDrop)) = [].
Proof.
  destruct (reset_opens_closed_switches _ oneClosed_inv) as (Ht & _ & He & _).
  split; [exact Ht | exact He].
Defined.

Lemma cycle_peripheral_calls_witness :
  exists k g,
    (k <= 4)%nat /\
    trace (exec readVoltages benchHighDrop) =
      trace benchHighDrop ++
      map (fun p => DigitalWrite p LOW) (skipn (openSwitches benchHighDrop) SWITCHES) ++
      closedInOrder k ++ [SetGain g; SetGain GAIN_TWOTHIRDS] /\
    openSwitches (exec readVoltages benchHighDrop) = (4 - k)%nat /\
    trace (exec sampleCycle benchHighDrop) = trace (exec readVoltages benchHighDrop).
Proof. exact (cycle_peripheral_calls benchHighDrop (afterSetup_inv _)). Defined.

Lemma search_index_in_bounds_witness :
  (byte_dec (openSwitches (searchEntry benchHighDrop)) < List.length SWITCHES)%nat.
Proof.
  assert (Hc : dropTooHigh (searchEntry benchHighDrop) = true)
    by (vm_compute; reflexivity).
  exact (proj1 (proj2 (search_index_in_bounds benchHighDrop _ (afterSetup_inv _)
                         (search_entry _) Hc))).
Defined.

Lemma current_zero_iff_known_voltage_zero_witness :
  176 < knownResistance (exec sampleCycle benchHighDrop) /\
  (current (exec sampleCycle benchHighDrop) == 0 <->
   knownVoltage (exec sampleCycle benchHighDrop) == 0).
Proof.
  destruct (current_zero_iff_known_voltage_zero benchHighDrop (afterSetup_inv _))
    as (Hlo & _ & _ & Hz).
  split; [exact Hlo | exact Hz].
Defined.

Lemma display_twice_out_of_range_witness :
  exists v,
    exec displayMeasurement (exec displayMeasurement (benchAverage 2000000)) =
      set_trace (trace (benchAverage 2000000) ++ shownOutOfRange ++ shownAs v)
                (set_unknownResistance 0 (benchAverage 2000000)) /\
    v == - LEAD_RESISTANCE /\
    -0.08 < v /\ v < -0.0799999.
Proof.
  assert (H : unknownResistance (benchAverage 2000000) < 0 \/
              1500000 <= unknownResistance (benchAverage 2000000))
    by (right; vm_compute; discriminate).
  exact (display_twice_out_of_range _ H).
Defined.

(** The sketch from power-on, on the scripted converter and the 16-bit
    [int]. *)
Lemma setup_establishes_invariant_witness :
  exists s',
    setup true (powerOn [20000; 19000; 10000; 20000]%Z) = Ready s' /\
    cycleInv (fw s') /\ lastSample s' = 0%Z /\ lastDisplay s' = 0%Z.
Proof.
  destruct (setup_establishes_invariant (powerOn [20000; 19000; 10000; 20000]%Z)
              eq_refl eq_refl) as (s' & E & Hinv & _ & _ & Hs & Hd & _).
  exists s'. split; [exact E |]. split; [exact Hinv |]. split; [exact Hs | exact Hd].
Defined.

Lemma sketch_keeps_invariant_witness :
  exists s0,
    setup true (powerOn [20000; 19000; 10000; 20000]%Z) = Ready s0 /\
    cycleInv (fw (runLoop [1; 2; 150; 32767; -32768]%Z s0)) /\
    176 < knownResistance (fw (runLoop [1; 2; 150; 32767; -32768]%Z s0)).
Proof.
  destruct (sketch_keeps_invariant (powerOn [20000; 19000; 10000; 20000]%Z)
              [1; 2; 150; 32767; -32768]%Z eq_refl eq_refl)
    as (s0 & E & Hinv & Hlo & _).
  exists s0. split; [exact E |]. split; [exact Hinv | exact Hlo].
Defined.

(** A call of [loop] 100 ms after a sample and a refresh at time 0. *)
Lemma loop_display_is_fresh_witness :
  fw (exec (loop 100) benchSketch) =
    exec displayMeasurement (exec sampleCycle benchHighDrop) /\
  lastSample (exec (loop 100) benchSketch) = 100%Z /\
  lastDisplay (exec (loop 100) benchSketch) = 100%Z.
Proof.
  assert (Hord : (lastDisplay benchSketch <= lastSample benchSketch <= 100)%Z)
    by (cbn; lia).
  assert (Hfit : (100 - lastDisplay benchSketch <= INT_MAX)%Z) by (cbn; lia).
  destruct (loop_display_is_fresh 100 benchSketch Hord Hfit) as (Hfw & _ & Hd).
  split; [exact Hfw | exact (Hd eq_refl)].
Defined.

(** The tier at -0.6 V, inside the interval where the 4x tier is skipped. *)
Lemma adjustGain_narrowest_iff_witness :
  gain (exec adjustGain
          (exec readUnknownVoltage (lessenDrop (searchEntry benchNegative)))) =
    GAIN_TWO /\
  narrowestTier
    (unknownVoltage
       (exec readUnknownVoltage (lessenDrop (searchEntry benchNegative)))) =
    GAIN_FOUR.
Proof.
  apply (proj2 (adjustGain_narrowest_iff
                  (exec readUnknownVoltage (lessenDrop (searchEntry benchNegative))))).
  split; [vm_compute; reflexivity | vm_compute; discriminate].
Defined.

Lemma loop_same_time_idle_witness :
  exec (loop 100) (exec (loop 100) benchSketch) = exec (loop 100) benchSketch.
Proof.
  assert (Hmax : (0 <= INT_MAX)%Z) by (cbn; lia).
  exact (loop_same_time_idle 100 benchSketch Hmax).
Defined.



(** The cycle on [benchHighDrop] reads a known voltage other than zero. *)
Lemma sample_cycle_ohms_law_witness :
  ~ knownResistance (exec readVoltages benchHighDrop) == 0 /\
  ~ current (exec calculateCurrent (exec readVoltages benchHighDrop)) == 0.
Proof.
  assert (Hkv : ~ knownVoltage (exec readVoltages benchHighDrop) == 0)
    by (intros H; vm_compute in H; discriminate H).
  destruct (sample_cycle_ohms_law benchHighDrop (afterSetup_inv _) Hkv)
    as (_ & Hr & _ & Hc & _).
  split; [exact Hr | exact Hc].
Defined.

(** Three more runs of [calculateResistance] after the cycle on
    [benchHighDrop]. *)
Lemma running_average_between_witness :
  unknownResistance (averageAfter 3 (exec sampleCycle benchHighDrop)) <=
  Qmax (unknownResistance (exec sampleCycle benchHighDrop))
       (unknownVoltage (exec sampleCycle benchHighDrop) /
        current (exec sampleCycle benchHighDrop)).
Proof.
  assert (Hc : ~ current (exec sampleCycle benchHighDrop) == 0)
    by (intros H; vm_compute in H; discriminate H).
  exact (proj2 (running_average_between 3 (exec sampleCycle benchHighDrop) Hc)).
Defined.
